(** * Tab Splitter: the background service worker, embedded and verified

    The development follows [background.js] (the service worker of the
    extension).  The worker is a thin layer over the host API
    ([chrome.windows], [chrome.tabs]): every operation is an [async]
    function that validates its input, awaits a few host calls and answers
    with an object [{ success, ... }].

    - JavaScript values are modelled as far as the worker inspects them
      ([!x], [typeof x], [a === b]).
    - An [async] function is a finite tree of suspension points
      ([Async]): at each [await] the host settles the pending call, either
      fulfilling it with a value or rejecting it with an error message.
    - The host is an arbitrary state machine; every theorem holds for all
      hosts.  [run] takes one operation to completion; [interleave] lets
      several calls take turns at their [await]s.
    - [referenceWindows], the module-level [Set], is threaded as state.
    - [console.log] and [console.error] have no effect on the worker and
      are left out. *)

From Stdlib Require Import ZArith QArith Qround List String Bool Lia.
Import ListNotations.

Open Scope string_scope.
Open Scope list_scope.
Open Scope Z_scope.

(** ** JavaScript values *)

(** Numbers: every finite double is a rational; [-0] and [0] are the same
    rational, which agrees with [!x] and [===]. *)
Inductive JsNumber : Type :=
| Finite (q : Q)
| NaN
| Infinity (negative : bool).

Inductive JsValue : Type :=
| JsUndefined
| JsNull
| JsBoolean (b : bool)
| JsNum (n : JsNumber)
| JsString (s : string)
| JsObject (ref : positive).

(** [typeof v] *)
Definition typeof (v : JsValue) : string :=
  match v with
  | JsUndefined => "undefined"
  | JsNull => "object"
  | JsBoolean _ => "boolean"
  | JsNum _ => "number"
  | JsString _ => "string"
  | JsObject _ => "object"
  end.

(** ToBoolean: [false], [0], [NaN], the empty string, [null] and
    [undefined] are falsy. *)
Definition truthy (v : JsValue) : bool :=
  match v with
  | JsUndefined => false
  | JsNull => false
  | JsBoolean b => b
  | JsNum (Finite q) => negb (Qeq_bool q 0%Q)
  | JsNum NaN => false
  | JsNum (Infinity _) => true
  | JsString s => negb (String.eqb s "")
  | JsObject _ => true
  end.

(** [!v] *)
Definition js_not (v : JsValue) : bool := negb (truthy v).

(** [a === b] *)
Definition strict_equal (a b : JsValue) : bool :=
  match a, b with
  | JsUndefined, JsUndefined => true
  | JsNull, JsNull => true
  | JsBoolean x, JsBoolean y => Bool.eqb x y
  | JsNum (Finite p), JsNum (Finite q) => Qeq_bool p q
  | JsNum (Infinity x), JsNum (Infinity y) => Bool.eqb x y
  | JsString s, JsString t => String.eqb s t
  | JsObject r, JsObject s => Pos.eqb r s
  | _, _ => false
  end.

(** An integer as a JavaScript number. *)
Definition js_int (z : Z) : JsValue := JsNum (Finite (inject_Z z)).

(** ** Data supplied by the host *)

Module Tab.
Record t : Type := mk {
  id : Z;
  active : bool;
  title : string;
  url : string
}.
End Tab.

Module Window.
(** Ids and bounds are integers, as the host supplies them.  [tabs] is
    absent unless the window was fetched with [populate: true]; the
    worker guards every use with [|| []]. *)
Record t : Type := mk {
  id : Z;
  left : Z;
  top : Z;
  width : Z;
  height : Z;
  tabs : option (list Tab.t)
}.
End Window.

Module Rect.
Record t : Type := mk {
  left : Z;
  top : Z;
  width : Z;
  height : Z
}.
End Rect.

(** The argument object of [chrome.windows.create]. *)
Module CreateData.
Record t : Type := mk {
  tabId : JsValue;
  left : Z;
  top : Z;
  width : Z;
  height : Z;
  focused : bool;
  type : option string
}.
End CreateData.

(** [{ tabId, ...bounds, focused }] *)
Definition spread (tabId : JsValue) (bounds : Rect.t) (focused : bool)
  : CreateData.t :=
  CreateData.mk tabId (Rect.left bounds) (Rect.top bounds)
                (Rect.width bounds) (Rect.height bounds) focused None.

(** ** The host API *)

Inductive HostCall : Type :=
| windows_getCurrent                       (* chrome.windows.getCurrent({ populate: true }) *)
| tabs_get (tabId : JsValue)               (* chrome.tabs.get(tabId) *)
| windows_create (data : CreateData.t)     (* chrome.windows.create(data) *)
| windows_remove (windowId : Z).           (* chrome.windows.remove(windowId) *)

(** What the promise of each call resolves to.  The worker tests the
    results of [tabs.get] and [windows.create] for falsiness, so these may
    resolve to [undefined] ([None]). *)
Definition reply_type (c : HostCall) : Type :=
  match c with
  | windows_getCurrent => Window.t
  | tabs_get _ => option Tab.t
  | windows_create _ => option Window.t
  | windows_remove _ => unit
  end.

Inductive Settled (R : Type) : Type :=
| Fulfilled (value : R)
| Rejected (message : string).
Arguments Fulfilled {R} value.
Arguments Rejected {R} message.

(** ** The registry: [const referenceWindows = new Set()] *)

(** A JavaScript [Set] keeps insertion order and holds no duplicates. *)
Definition Registry : Type := list Z.

Definition Set_has (s : Registry) (x : Z) : bool :=
  existsb (Z.eqb x) s.

Definition Set_add (s : Registry) (x : Z) : Registry :=
  if Set_has s x then s else s ++ [x].

Definition Set_delete (s : Registry) (x : Z) : Registry :=
  filter (fun y => negb (Z.eqb x y)) s.

Definition Set_size (s : Registry) : nat := List.length s.

Definition Set_clear (s : Registry) : Registry := [].

(** ** Async functions *)

(** The control flow of an [async] function body.  [Await c k] suspends on
    the host call [c] and resumes with [k]; a [throw] is [Throw]. *)
Inductive Async (A : Type) : Type :=
| Return (a : A)
| Throw (message : string)
| Await (c : HostCall) (k : Settled (reply_type c) -> Async A)
| ReadRegistry (k : Registry -> Async A)
| WriteRegistry (r : Registry) (k : Async A).
Arguments Return {A} a.
Arguments Throw {A} message.
Arguments Await {A} c k.
Arguments ReadRegistry {A} k.
Arguments WriteRegistry {A} r k.

Fixpoint bind {A B : Type} (p : Async A) (f : A -> Async B) : Async B :=
  match p with
  | Return a => f a
  | Throw m => Throw m
  | Await c k => Await c (fun s => bind (k s) f)
  | ReadRegistry k => ReadRegistry (fun r => bind (k r) f)
  | WriteRegistry r k => WriteRegistry r (bind k f)
  end.

(** [try { p } catch (error) { handler(error.message) }] *)
Fixpoint try_catch {A : Type} (p : Async A) (handler : string -> Async A)
  : Async A :=
  match p with
  | Return a => Return a
  | Throw m => handler m
  | Await c k => Await c (fun s => try_catch (k s) handler)
  | ReadRegistry k => ReadRegistry (fun r => try_catch (k r) handler)
  | WriteRegistry r k => WriteRegistry r (try_catch k handler)
  end.

Declare Scope async_scope.
Delimit Scope async_scope with async.
Bind Scope async_scope with Async.
Notation "x <- p ;; q" := (bind p (fun x => q))
  (at level 61, p at next level, right associativity) : async_scope.
Notation "p ;; q" := (bind p (fun _ => q))
  (at level 61, right associativity) : async_scope.
Open Scope async_scope.

(** [await c]: a rejected promise throws at the [await]. *)
Definition await (c : HostCall) : Async (reply_type c) :=
  Await c (fun s =>
    match s with
    | Fulfilled v => Return v
    | Rejected m => Throw m
    end).

(** [promise.catch(error => null)]: the rejection is swallowed. *)
Definition await_catch_null (c : HostCall) : Async (option (reply_type c)) :=
  Await c (fun s =>
    match s with
    | Fulfilled v => Return (Some v)
    | Rejected _ => Return None
    end).

Definition referenceWindows_get : Async Registry :=
  ReadRegistry (fun r => Return r).

Definition referenceWindows_size : Async nat :=
  ReadRegistry (fun r => Return (Set_size r)).

Definition referenceWindows_has (x : Z) : Async bool :=
  ReadRegistry (fun r => Return (Set_has r x)).

Definition referenceWindows_add (x : Z) : Async unit :=
  ReadRegistry (fun r => WriteRegistry (Set_add r x) (Return tt)).

Definition referenceWindows_delete (x : Z) : Async unit :=
  ReadRegistry (fun r => WriteRegistry (Set_delete r x) (Return tt)).

Definition referenceWindows_clear : Async unit :=
  ReadRegistry (fun r => WriteRegistry (Set_clear r) (Return tt)).

(** ** Responses *)

(** The error taxonomy.  The JavaScript object carries only the message;
    the kind records which [return] produced it.  Whatever reaches the
    outermost [catch] of an operation is [HostOperationFailed], with the
    message of the exception. *)
Inductive ErrorKind : Type :=
| InvalidInput
| WindowTooSmall
| TabNotFound
| InsufficientTabs
| ReferenceLimitReached
| NotTracked
| HostOperationFailed.

(** [{ success: true, ...data }] or [{ success: false, error }] *)
Inductive Response (D : Type) : Type :=
| Success (data : D)
| Failure (kind : ErrorKind) (error : string).
Arguments Success {D} data.
Arguments Failure {D} kind error.

Definition success {D : Type} (r : Response D) : bool :=
  match r with
  | Success _ => true
  | Failure _ _ => false
  end.

Definition ErrorKind_eqb (a b : ErrorKind) : bool :=
  match a, b with
  | InvalidInput, InvalidInput
  | WindowTooSmall, WindowTooSmall
  | TabNotFound, TabNotFound
  | InsufficientTabs, InsufficientTabs
  | ReferenceLimitReached, ReferenceLimitReached
  | NotTracked, NotTracked
  | HostOperationFailed, HostOperationFailed => true
  | _, _ => false
  end.

(** ** Running an operation against a host *)

Inductive Completion (A : Type) : Type :=
| Normal (a : A)
| Abrupt (message : string).
Arguments Normal {A} a.
Arguments Abrupt {A} message.

Record Outcome (H A : Type) : Type := mkOutcome {
  completion : Completion A;
  final_host : H;
  final_registry : Registry;
  calls : list HostCall          (* the host calls issued, in order *)
}.
Arguments mkOutcome {H A}.
Arguments completion {H A}.
Arguments final_host {H A}.
Arguments final_registry {H A}.
Arguments calls {H A}.

(** A host answers each call from its current state and moves on. *)
Definition Host (H : Type) : Type :=
  forall c : HostCall, H -> Settled (reply_type c) * H.

Fixpoint run {H A : Type} (host : Host H) (p : Async A) (h : H)
  (reg : Registry) : Outcome H A :=
  match p with
  | Return a => mkOutcome (Normal a) h reg []
  | Throw m => mkOutcome (Abrupt m) h reg []
  | Await c k =>
      let o := run host (k (fst (host c h))) (snd (host c h)) reg in
      mkOutcome (completion o) (final_host o) (final_registry o)
                (c :: calls o)
  | ReadRegistry k => run host (k reg) h reg
  | WriteRegistry r k => run host k h r
  end.

(** ** Array helpers *)

(** [array.findIndex(p)]: the first index whose element satisfies [p],
    [-1] when there is none. *)
Fixpoint findIndex {A : Type} (p : A -> bool) (array : list A) : Z :=
  match array with
  | [] => -1
  | x :: rest =>
      if p x then 0
      else let i := findIndex p rest in
           if i <? 0 then -1 else i + 1
  end.

(** [array[i]]: [undefined] ([None]) out of range. *)
Definition array_at {A : Type} (array : list A) (i : Z) : option A :=
  if i <? 0 then None else nth_error array (Z.to_nat i).

(** [a || b] on values that are objects when defined. *)
Definition or_else {A : Type} (a b : option A) : option A :=
  match a with
  | Some x => Some x
  | None => b
  end.

(** [currentWindow.tabs || []] *)
Definition tabs_or_empty (currentWindow : Window.t) : list Tab.t :=
  match Window.tabs currentWindow with
  | Some tabs => tabs
  | None => []
  end.

Definition is_undefined {A : Type} (a : option A) : bool :=
  match a with
  | Some _ => false
  | None => true
  end.

(** The message of the [TypeError] raised by reading [.id] of
    [undefined]. *)
Definition TypeError_id : string :=
  "Cannot read properties of undefined (reading 'id')".

(** ** splitWindow *)

Record SplitData : Type := mkSplitData {
  leftWindow : Z;
  rightWindow : Z
}.

(** [const halfWidth = Math.floor(width / 2)] *)
Definition halfWidth (currentWindow : Window.t) : Z :=
  Window.width currentWindow / 2.

Definition leftWindowBounds (currentWindow : Window.t) : Rect.t :=
  {| Rect.left := Window.left currentWindow;
     Rect.top := Window.top currentWindow;
     Rect.width := halfWidth currentWindow;
     Rect.height := Window.height currentWindow |}.

Definition rightWindowBounds (currentWindow : Window.t) : Rect.t :=
  {| Rect.left := Window.left currentWindow + halfWidth currentWindow;
     Rect.top := Window.top currentWindow;
     Rect.width := halfWidth currentWindow;
     Rect.height := Window.height currentWindow |}.

(** The inner [try] of [splitWindow]: [Some r] when the block returns [r]
    from the function, [None] when control falls through. *)
Definition verify_tabs (leftTabId rightTabId : JsValue)
  : Async (option (Response SplitData)) :=
  try_catch
    (leftTab <- await (tabs_get leftTabId) ;;
     rightTab <- await (tabs_get rightTabId) ;;
     if is_undefined leftTab || is_undefined rightTab
     then Return (Some (Failure TabNotFound "One or both tabs not found"))
     else Return None)
    (fun error =>
       Return (Some (Failure TabNotFound
                       "Invalid tab IDs or tabs not accessible"))).

Definition splitWindow (leftTabId rightTabId : JsValue)
  : Async (Response SplitData) :=
  try_catch
    (if js_not leftTabId || js_not rightTabId
        || negb (typeof leftTabId =? "number")%string
        || negb (typeof rightTabId =? "number")%string
     then Return (Failure InvalidInput "Invalid tab IDs provided")
     else if strict_equal leftTabId rightTabId
     then Return (Failure InvalidInput "Cannot split the same tab")
     else
       currentWindow <- await windows_getCurrent ;;
       if (Window.width currentWindow <? 400)
          || (Window.height currentWindow <? 300)
       then Return (Failure WindowTooSmall
                      "Window too small to split effectively")
       else
         early <- verify_tabs leftTabId rightTabId ;;
         match early with
         | Some response => Return response
         | None =>
             leftWindow <- await (windows_create
               (spread leftTabId (leftWindowBounds currentWindow) true)) ;;
             rightWindow <- await (windows_create
               (spread rightTabId (rightWindowBounds currentWindow) false)) ;;
             match leftWindow, rightWindow with
             | Some leftWindow, Some rightWindow =>
                 let originalTabs := tabs_or_empty currentWindow in
                 (if (List.length originalTabs <=? 2)%nat
                  then await (windows_remove (Window.id currentWindow))
                  else Return tt) ;;
                 Return (Success {| leftWindow := Window.id leftWindow;
                                    rightWindow := Window.id rightWindow |})
             | _, _ => Throw "Failed to create one or both windows"
             end
         end)
    (fun error => Return (Failure HostOperationFailed error)).

(** ** getCurrentWindowTabs, getTabInfo *)

Definition getCurrentWindowTabs : Async (list Tab.t) :=
  try_catch
    (currentWindow <- await windows_getCurrent ;;
     Return (tabs_or_empty currentWindow))
    (fun error => Return []).

Definition getTabInfo (tabId : JsValue) : Async (option Tab.t) :=
  try_catch
    (await (tabs_get tabId))
    (fun error => Return None).

(** ** Reference windows *)

Record ReferenceData : Type := mkReferenceData {
  windowId : Z;
  tabId : JsValue;
  dimensions : Z * Z             (* { width, height } *)
}.

(** [Math.floor(width * 0.2)], in exact arithmetic: for an integer width
    the double product has the same floor. *)
Definition referenceWidth (currentWindow : Window.t) : Z :=
  Qfloor (inject_Z (Window.width currentWindow) * (2 # 10)).

(** The inner [try] of [createReferenceWindow]. *)
Definition verify_tab (tabId : JsValue)
  : Async (option (Response ReferenceData)) :=
  try_catch
    (tab <- await (tabs_get tabId) ;;
     if is_undefined tab
     then Return (Some (Failure TabNotFound "Tab not found"))
     else Return None)
    (fun error => Return (Some (Failure TabNotFound "Tab not accessible"))).

Definition createReferenceWindow (tabId : JsValue)
  : Async (Response ReferenceData) :=
  try_catch
    (if js_not tabId || negb (typeof tabId =? "number")%string
     then Return (Failure InvalidInput "Invalid tab ID provided")
     else
       size <- referenceWindows_size ;;
       if (3 <=? size)%nat
       then Return (Failure ReferenceLimitReached
                      "Maximum of 3 reference windows allowed")
       else
         early <- verify_tab tabId ;;
         match early with
         | Some response => Return response
         | None =>
             currentWindow <- await windows_getCurrent ;;
             let referenceHeight := Window.height currentWindow in
             let referenceLeft :=
               Window.left currentWindow + Window.width currentWindow in
             let referenceTop := Window.top currentWindow in
             referenceWindow <- await (windows_create
               {| CreateData.tabId := tabId;
                  CreateData.left := referenceLeft;
                  CreateData.top := referenceTop;
                  CreateData.width := referenceWidth currentWindow;
                  CreateData.height := referenceHeight;
                  CreateData.focused := false;
                  CreateData.type := Some "normal" |}) ;;
             match referenceWindow with
             | None => Throw TypeError_id
             | Some referenceWindow =>
                 referenceWindows_add (Window.id referenceWindow) ;;
                 Return (Success
                   {| windowId := Window.id referenceWindow;
                      tabId := tabId;
                      dimensions := (referenceWidth currentWindow,
                                     referenceHeight) |})
             end
         end)
    (fun error => Return (Failure HostOperationFailed error)).

Definition closeReferenceWindow (windowId : Z) : Async (Response Z) :=
  try_catch
    (tracked <- referenceWindows_has windowId ;;
     if negb tracked
     then Return (Failure NotTracked
                    "Window is not a tracked reference window")
     else
       await (windows_remove windowId) ;;
       referenceWindows_delete windowId ;;
       Return (Success windowId))
    (fun error => Return (Failure HostOperationFailed error)).

(** [Array.from(referenceWindows).map(windowId =>
       chrome.windows.remove(windowId).catch(error => null))],
    awaited by [Promise.all]: one removal call per tracked id, in
    insertion order, none of which can reject. *)
Fixpoint closePromises (ids : list Z) : Async (list (option unit)) :=
  match ids with
  | [] => Return []
  | windowId :: rest =>
      settled <- await_catch_null (windows_remove windowId) ;;
      others <- closePromises rest ;;
      Return (settled :: others)
  end.

Definition closeAllReferenceWindows : Async (Response nat) :=
  try_catch
    (ids <- referenceWindows_get ;;
     closePromises ids ;;
     closedCount <- referenceWindows_size ;;
     referenceWindows_clear ;;
     Return (Success closedCount))
    (fun error => Return (Failure HostOperationFailed error)).

(** [{ success: true, windows, count }] *)
Definition getReferenceWindows : Async (list Z * nat) :=
  windows <- referenceWindows_get ;;
  count <- referenceWindows_size ;;
  Return (windows, count).

(** ** The message listener *)

Inductive Request : Type :=
| action_getCurrentWindowTabs
| action_splitWindow (leftTabId rightTabId : JsValue)
| action_getTabInfo (tabId : JsValue)
| action_quickSplit
| action_createReferenceWindow (tabId : JsValue)
| action_closeReferenceWindow (windowId : Z)
| action_closeAllReferenceWindows
| action_getReferenceWindows
| action_unknown.

(** What [sendResponse] receives. *)
Inductive MessageResponse : Type :=
| TabsData (data : list Tab.t)
| TabInfoData (data : option Tab.t)
| SplitResult (result : Response SplitData)
| ReferenceResult (result : Response ReferenceData)
| CloseResult (result : Response Z)
| CloseAllResult (result : Response nat)
| ReferenceWindowsList (windows : list Z) (count : nat)
| MessageError (kind : ErrorKind) (error : string).

(** [case 'quickSplit':] of the listener. *)
Definition quickSplit : Async (Response SplitData) :=
  quickSplitTabs <- getCurrentWindowTabs ;;
  if (2 <=? List.length quickSplitTabs)%nat
  then
    let currentIndex := findIndex Tab.active quickSplitTabs in
    let leftTab := array_at quickSplitTabs currentIndex in
    let rightTab := or_else (array_at quickSplitTabs (currentIndex + 1))
                            (array_at quickSplitTabs 0) in
    match leftTab, rightTab with
    | Some leftTab, Some rightTab =>
        splitWindow (js_int (Tab.id leftTab)) (js_int (Tab.id rightTab))
    | _, _ => Throw TypeError_id
    end
  else Return (Failure InsufficientTabs "Need at least 2 tabs to split").

Definition onMessage (request : Request) : Async MessageResponse :=
  try_catch
    (match request with
     | action_getCurrentWindowTabs =>
         currentTabs <- getCurrentWindowTabs ;;
         Return (TabsData currentTabs)
     | action_splitWindow leftTabId rightTabId =>
         result <- splitWindow leftTabId rightTabId ;;
         Return (SplitResult result)
     | action_getTabInfo tabId =>
         tabInfo <- getTabInfo tabId ;;
         Return (TabInfoData tabInfo)
     | action_quickSplit =>
         result <- quickSplit ;;
         Return (SplitResult result)
     | action_createReferenceWindow tabId =>
         referenceResult <- createReferenceWindow tabId ;;
         Return (ReferenceResult referenceResult)
     | action_closeReferenceWindow windowId =>
         closeResult <- closeReferenceWindow windowId ;;
         Return (CloseResult closeResult)
     | action_closeAllReferenceWindows =>
         closeAllResult <- closeAllReferenceWindows ;;
         Return (CloseAllResult closeAllResult)
     | action_getReferenceWindows =>
         refWindows <- getReferenceWindows ;;
         Return (ReferenceWindowsList (fst refWindows) (snd refWindows))
     | action_unknown =>
         Return (MessageError InvalidInput "Unknown action")
     end)
    (fun error => Return (MessageError HostOperationFailed error)).

(** [chrome.windows.onRemoved] listener. *)
Definition onRemoved (windowId : Z) : Async unit :=
  tracked <- referenceWindows_has windowId ;;
  if tracked then referenceWindows_delete windowId else Return tt.

(** Everything the worker does: answering a message, or reacting to a
    closed window. *)
Inductive Operation : Type :=
| Message (request : Request)
| WindowRemoved (windowId : Z).

Definition perform (op : Operation) : Async (option MessageResponse) :=
  match op with
  | Message request =>
      response <- onMessage request ;;
      Return (Some response)
  | WindowRemoved windowId =>
      onRemoved windowId ;;
      Return None
  end.

(** ** Overlapping calls *)

(** The worker is single-threaded, but each message starts its own
    [async] call and the calls take turns at their [await]s.  The code
    between two suspension points runs without interruption. *)
Fixpoint until_await {A : Type} (p : Async A) (reg : Registry)
  : Async A * Registry :=
  match p with
  | ReadRegistry k => until_await (k reg) reg
  | WriteRegistry r k => until_await k r
  | _ => (p, reg)
  end.

(** One turn of a call: run up to the next [await] and let the host
    settle it.  A call that has returned or thrown stays as it is. *)
Definition turn {H A : Type} (host : Host H) (p : Async A) (h : H)
  (reg : Registry) : Async A * H * Registry :=
  match fst (until_await p reg) with
  | Await c k =>
      (k (fst (host c h)), snd (host c h), snd (until_await p reg))
  | p' => (p', h, snd (until_await p reg))
  end.

Fixpoint replace_nth {A : Type} (l : list A) (i : nat) (x : A) : list A :=
  match l, i with
  | [], _ => []
  | _ :: rest, O => x :: rest
  | y :: rest, S i => y :: replace_nth rest i x
  end.

(** The calls in [pool] take turns in the order [schedule] names them. *)
Fixpoint interleave {H A : Type} (host : Host H) (schedule : list nat)
  (pool : list (Async A)) (h : H) (reg : Registry)
  : list (Async A) * H * Registry :=
  match schedule with
  | [] => (pool, h, reg)
  | i :: rest =>
      match nth_error pool i with
      | Some p =>
          let '(p', h', reg') := turn host p h reg in
          interleave host rest (replace_nth pool i p') h' reg'
      | None => interleave host rest pool h reg
      end
  end.

(** ** Vocabulary of the statements *)

(** The operation answered [{ success: false, error }] from the return
    site of the given kind. *)
Definition fails_with {H D : Type} (kind : ErrorKind)
  (o : Outcome H (Response D)) : Prop :=
  exists error, completion o = Normal (Failure kind error).

(** A number other than [0] and [NaN]: what passes
    [!x || typeof x !== 'number']. *)
Definition nonzero_number (v : JsValue) : Prop :=
  match v with
  | JsNum (Finite q) => ~ (q == 0)%Q
  | JsNum (Infinity _) => True
  | _ => False
  end.

Definition is_create (c : HostCall) : bool :=
  match c with
  | windows_create _ => true
  | _ => false
  end.

Definition is_remove (c : HostCall) : bool :=
  match c with
  | windows_remove _ => true
  | _ => false
  end.

(** The window ids whose removal was requested, in order. *)
Definition removed (cs : list HostCall) : list Z :=
  flat_map (fun c => match c with
                     | windows_remove windowId => [windowId]
                     | _ => []
                     end) cs.

(** ** A scripted host, for running the worker on concrete inputs *)

Record Script : Type := mkScript {
  current : Window.t;            (* the current window *)
  known_tabs : list Tab.t;       (* the tabs [tabs.get] can find *)
  next_id : Z;                   (* id of the next window created *)
  removal_fails : bool           (* [windows.remove] rejects *)
}.

Definition scripted : Host Script :=
  fun c s =>
    match c return Settled (reply_type c) * Script with
    | windows_getCurrent => (Fulfilled (current s), s)
    | tabs_get v =>
        (match find (fun t => strict_equal v (js_int (Tab.id t)))
                    (known_tabs s) with
         | Some t => Fulfilled (Some t)
         | None => Rejected "No tab with id"
         end, s)
    | windows_create d =>
        (Fulfilled (Some (Window.mk (next_id s) (CreateData.left d)
                            (CreateData.top d) (CreateData.width d)
                            (CreateData.height d) None)),
         mkScript (current s) (known_tabs s) (next_id s + 1)
                  (removal_fails s))
    | windows_remove _ =>
        (if removal_fails s then Rejected "No window with id"
         else Fulfilled tt, s)
    end.

Definition tabA : Tab.t := Tab.mk 11 true "A" "https://a.example".
Definition tabB : Tab.t := Tab.mk 12 false "B" "https://b.example".
Definition tabC : Tab.t := Tab.mk 13 false "C" "https://c.example".

(** A window [width] x [height] at the origin holding [tabs]. *)
Definition window_of (width height : Z) (tabs : list Tab.t) : Window.t :=
  Window.mk 1 0 0 width height (Some tabs).

Definition script_of (w : Window.t) (fails : bool) : Script :=
  mkScript w (tabs_or_empty w) 100 fails.

(** A host on which every call is rejected. *)
Definition failing : Host unit :=
  fun c s => (Rejected "host failure", s).

(** ** Concrete inputs *)

(** Tabs whose ids are [0] and [5]. *)
Definition tabZero : Tab.t := Tab.mk 0 true "Z" "https://z.example".
Definition tabFive : Tab.t := Tab.mk 5 false "F" "https://f.example".

(** [A] inactive, [B] active. *)
Definition tabA' : Tab.t := Tab.mk 11 false "A" "https://a.example".
Definition tabB' : Tab.t := Tab.mk 12 true "B" "https://b.example".

(** An odd width. *)
Definition odd_window : Window.t := window_of 401 300 [tabA; tabB].
Definition odd_split : Outcome Script (Response SplitData) :=
  run scripted (splitWindow (js_int 11) (js_int 12))
      (script_of odd_window false) [].

(** Ids [0] and [5] in a large and in a small window. *)
Definition zero_window : Window.t := window_of 800 600 [tabZero; tabFive].
Definition zero_split : Outcome Script (Response SplitData) :=
  run scripted (splitWindow (js_int 0) (js_int 5))
      (script_of zero_window false) [].

(** The ids [1.5] and [2.5]. *)
Definition fractional_split : Outcome Script (Response SplitData) :=
  run scripted (splitWindow (JsNum (Finite (3 # 2))) (JsNum (Finite (5 # 2))))
      (script_of zero_window false) [].

Definition small_zero_window : Window.t :=
  window_of 200 100 [tabZero; tabFive].
Definition small_zero_split : Outcome Script (Response SplitData) :=
  run scripted (splitWindow (js_int 0) (js_int 5))
      (script_of small_zero_window false) [].

Definition small_window : Window.t := window_of 399 600 [tabA; tabB].
Definition large_window : Window.t := window_of 800 600 [tabA; tabB].
Definition wrap_window : Window.t := window_of 800 600 [tabA'; tabB'].

(** Three tracked windows and the tab id [0]. *)
Definition full_registry : Registry := [201; 202; 203].
Definition zero_reference : Outcome Script (Response ReferenceData) :=
  run scripted (createReferenceWindow (js_int 0))
      (script_of zero_window false) full_registry.

(** Closing a tracked window on a host whose removal call rejects. *)
Definition stuck_close : Outcome Script (Response Z) :=
  run scripted (closeReferenceWindow 201)
      (script_of large_window true) full_registry.

(** Two [createReferenceWindow] calls that overlap while two windows are
    tracked. *)
Definition overlapping_creates
  : list (Async (Response ReferenceData)) * Script * Registry :=
  interleave scripted [0; 1; 0; 1; 0; 1; 0; 1]%nat
    [createReferenceWindow (js_int 11); createReferenceWindow (js_int 12)]
    (script_of large_window false) [201; 202].

(** ** Requests that can change the registry *)

Definition touches_registry (request : Request) : bool :=
  match request with
  | action_createReferenceWindow _
  | action_closeReferenceWindow _
  | action_closeAllReferenceWindows => true
  | _ => false
  end.

(** Two tabs, neither of them active. *)
Definition idle_window : Window.t := window_of 800 600 [tabA'; tabB].

(** ** The host after a sequence of calls *)

Definition host_after {H : Type} (host : Host H) (cs : list HostCall)
  (h : H) : H :=
  fold_left (fun s c => snd (host c s)) cs h.

(** * The popup

    [popup.js] holds the tabs it loaded, a loading flag and the DOM
    elements it reads and writes.  It talks to the worker through
    [chrome.runtime.sendMessage]. *)

(** The object and the DOM properties its handlers touch.  A character of
    a string stands for one UTF-16 code unit. *)
Module Popup.
Record t : Type := mk {
  tabs : list Tab.t;                        (* this.tabs *)
  isLoading : bool;                         (* this.isLoading *)
  leftTabSelect_value : string;             (* this.leftTabSelect.value *)
  rightTabSelect_value : string;            (* this.rightTabSelect.value *)
  splitButton_disabled : bool;
  splitCurrentAndNextBtn_disabled : bool;
  splitFirstTwoBtn_disabled : bool;
  closeAllReferencesBtn_disabled : bool;
  refButtons_disabled : list bool;          (* every '.btn-reference' *)
  body_loading : bool;                      (* body.classList has 'loading' *)
  statusMessage_textContent : string;
  statusMessage_className : string;
  close_timers : nat                        (* setTimeout(window.close) *)
}.
End Popup.

(** [response.success] and [response.error] of what the worker sent. *)
Definition response_success (response : MessageResponse) : bool :=
  match response with
  | TabsData _ => true
  | TabInfoData _ => true
  | SplitResult result => success result
  | ReferenceResult result => success result
  | CloseResult result => success result
  | CloseAllResult result => success result
  | ReferenceWindowsList _ _ => true
  | MessageError _ _ => false
  end.

Definition error_of {D : Type} (result : Response D) : option string :=
  match result with
  | Success _ => None
  | Failure _ error => Some error
  end.

Definition response_error (response : MessageResponse) : option string :=
  match response with
  | TabsData _ => None
  | TabInfoData _ => None
  | SplitResult result => error_of result
  | ReferenceResult result => error_of result
  | CloseResult result => error_of result
  | CloseAllResult result => error_of result
  | ReferenceWindowsList _ _ => None
  | MessageError _ error => Some error
  end.

(** [error || fallback] on a string that may be [undefined]: the empty
    string is falsy too. *)
Definition string_or (error : option string) (fallback : string) : string :=
  match error with
  | Some e => if (e =? "")%string then fallback else e
  | None => fallback
  end.

(** A method of the popup: it reads and writes the popup, sends messages
    and awaits their responses.  [sendMessage] resolves with the response
    ([undefined] when the listener sent none) or rejects with
    [chrome.runtime.lastError]. *)
Inductive PopupAsync (A : Type) : Type :=
| PReturn (a : A)
| PThrow (message : string)
| PSend (message : Request)
        (k : Settled (option MessageResponse) -> PopupAsync A)
| PRead (k : Popup.t -> PopupAsync A)
| PWrite (s : Popup.t) (k : PopupAsync A).
Arguments PReturn {A} a.
Arguments PThrow {A} message.
Arguments PSend {A} message k.
Arguments PRead {A} k.
Arguments PWrite {A} s k.

Fixpoint pbind {A B : Type} (p : PopupAsync A) (f : A -> PopupAsync B)
  : PopupAsync B :=
  match p with
  | PReturn a => f a
  | PThrow m => PThrow m
  | PSend message k => PSend message (fun s => pbind (k s) f)
  | PRead k => PRead (fun s => pbind (k s) f)
  | PWrite s k => PWrite s (pbind k f)
  end.

(** [try { p } catch (error) { handler(error.message) }] *)
Fixpoint ptry_catch {A : Type} (p : PopupAsync A)
  (handler : string -> PopupAsync A) : PopupAsync A :=
  match p with
  | PReturn a => PReturn a
  | PThrow m => handler m
  | PSend message k => PSend message (fun s => ptry_catch (k s) handler)
  | PRead k => PRead (fun s => ptry_catch (k s) handler)
  | PWrite s k => PWrite s (ptry_catch k handler)
  end.

(** [try { p } finally { cleanup }]: [cleanup] runs either way, and an
    exception of [p] goes on after it. *)
Definition ptry_finally {A : Type} (p : PopupAsync A)
  (cleanup : PopupAsync unit) : PopupAsync A :=
  pbind (ptry_catch (pbind p (fun a => PReturn (inl a)))
                    (fun m => PReturn (inr m)))
        (fun r => pbind cleanup (fun _ =>
                    match r with
                    | inl a => PReturn a
                    | inr m => PThrow m
                    end)).

Declare Scope popup_scope.
Delimit Scope popup_scope with popup.
Bind Scope popup_scope with PopupAsync.
Notation "x <- p ;; q" := (pbind p (fun x => q))
  (at level 61, p at next level, right associativity) : popup_scope.
Notation "p ;; q" := (pbind p (fun _ => q))
  (at level 61, right associativity) : popup_scope.

(** [await this.sendMessage(message)] *)
Definition sendMessage (message : Request)
  : PopupAsync (option MessageResponse) :=
  PSend message (fun s =>
    match s with
    | Fulfilled response => PReturn response
    | Rejected m => PThrow m
    end).

Definition this : PopupAsync Popup.t := PRead (fun s => PReturn s).

Definition update (f : Popup.t -> Popup.t) : PopupAsync unit :=
  PRead (fun s => PWrite (f s) (PReturn tt)).

(** [showStatus(message, type)]: the text, and
    [className = `status-message ${type}`]. *)
Definition shown (message type : string) (s : Popup.t) : Popup.t :=
  Popup.mk (Popup.tabs s) (Popup.isLoading s)
    (Popup.leftTabSelect_value s) (Popup.rightTabSelect_value s)
    (Popup.splitButton_disabled s)
    (Popup.splitCurrentAndNextBtn_disabled s)
    (Popup.splitFirstTwoBtn_disabled s)
    (Popup.closeAllReferencesBtn_disabled s)
    (Popup.refButtons_disabled s) (Popup.body_loading s)
    message ("status-message " ++ type)%string
    (Popup.close_timers s).

Definition showStatus (message type : string) : PopupAsync unit :=
  update (shown message type).

(** [setLoading(loading)]: the flag, the four buttons, every
    ['.btn-reference'] button and the ['loading'] class of the body. *)
Definition loading_set (loading : bool) (s : Popup.t) : Popup.t :=
  Popup.mk (Popup.tabs s) loading
    (Popup.leftTabSelect_value s) (Popup.rightTabSelect_value s)
    loading loading loading loading
    (map (fun _ => loading) (Popup.refButtons_disabled s))
    loading
    (Popup.statusMessage_textContent s)
    (Popup.statusMessage_className s)
    (Popup.close_timers s).

Definition setLoading (loading : bool) : PopupAsync unit :=
  update (loading_set loading).

(** [setTimeout(() => window.close(), 1500)] *)
Definition close_scheduled (s : Popup.t) : Popup.t :=
  Popup.mk (Popup.tabs s) (Popup.isLoading s)
    (Popup.leftTabSelect_value s) (Popup.rightTabSelect_value s)
    (Popup.splitButton_disabled s)
    (Popup.splitCurrentAndNextBtn_disabled s)
    (Popup.splitFirstTwoBtn_disabled s)
    (Popup.closeAllReferencesBtn_disabled s)
    (Popup.refButtons_disabled s) (Popup.body_loading s)
    (Popup.statusMessage_textContent s)
    (Popup.statusMessage_className s)
    (S (Popup.close_timers s)).

Definition schedule_close : PopupAsync unit := update close_scheduled.

(** The message of the [TypeError] raised by reading [.success] of
    [undefined]. *)
Definition TypeError_success : string :=
  "Cannot read properties of undefined (reading 'success')".

Definition performSplit (leftTabId rightTabId : JsValue)
  : PopupAsync unit :=
  (s <- this ;;
   if Popup.isLoading s then PReturn tt
   else
     setLoading true ;;
     showStatus "Splitting windows..." "info" ;;
     ptry_finally
       (ptry_catch
          (response <- sendMessage
                         (action_splitWindow leftTabId rightTabId) ;;
           match response with
           | None => PThrow TypeError_success
           | Some response =>
               if response_success response
               then
                 showStatus "Windows split successfully!" "success" ;;
                 schedule_close
               else
                 PThrow (string_or (response_error response)
                                   "Failed to split windows")
           end)
          (fun error => showStatus ("Error: " ++ error)%string "error"))
       (setLoading false))%popup.

Definition handleQuickSplit (type : string) : PopupAsync unit :=
  (s <- this ;;
   if (List.length (Popup.tabs s) <? 2)%nat
   then showStatus "Need at least 2 tabs to split" "error"
   else
     ptry_catch
       (let tabs := Popup.tabs s in
        let picked :=
          if (type =? "currentAndNext")%string then
            let currentIndex := findIndex Tab.active tabs in
            (array_at tabs currentIndex,
             or_else (array_at tabs (currentIndex + 1)) (array_at tabs 0))
          else if (type =? "firstTwo")%string then
            (array_at tabs 0, array_at tabs 1)
          else (None, None) in
        match picked with
        | (Some leftTab, Some rightTab) =>
            performSplit (js_int (Tab.id leftTab))
                         (js_int (Tab.id rightTab))
        | _ => PReturn tt
        end)
       (fun error =>
          showStatus ("Error with quick split: " ++ error)%string
                     "error"))%popup.

(** [isNaN(x)] on a number. *)
Definition isNaN (n : JsNumber) : bool :=
  match n with
  | NaN => true
  | _ => false
  end.

(** [handleSplit], given the built-in [parseInt]. *)
Definition handleSplit (parseInt : string -> JsNumber) : PopupAsync unit :=
  (s <- this ;;
   let leftTabId := parseInt (Popup.leftTabSelect_value s) in
   let rightTabId := parseInt (Popup.rightTabSelect_value s) in
   if isNaN leftTabId || isNaN rightTabId
      || js_not (JsNum leftTabId) || js_not (JsNum rightTabId)
   then showStatus "Please select tabs for both windows" "error"
   else if strict_equal (JsNum leftTabId) (JsNum rightTabId)
   then showStatus "Please select different tabs" "error"
   else performSplit (JsNum leftTabId) (JsNum rightTabId))%popup.

(** [getTabDisplayName(tab)] *)
Definition getTabDisplayName (tab : Tab.t) : string :=
  let title := string_or (Some (Tab.title tab)) "Untitled" in
  let maxLength := 40%nat in
  if (maxLength <? String.length title)%nat
  then (String.substring 0 maxLength title ++ "...")%string
  else title.

(** ** Running a popup method against a worker *)

Record PopupOutcome (B A : Type) : Type := mkPopupOutcome {
  popup_completion : Completion A;
  popup_final : Popup.t;
  worker_final : B;
  sent : list Request               (* the messages sent, in order *)
}.
Arguments mkPopupOutcome {B A}.
Arguments popup_completion {B A}.
Arguments popup_final {B A}.
Arguments worker_final {B A}.
Arguments sent {B A}.

(** Whatever is at the other end of [chrome.runtime.sendMessage]. *)
Definition Worker (B : Type) : Type :=
  Request -> B -> Settled (option MessageResponse) * B.

Fixpoint run_popup {B A : Type} (worker : Worker B) (p : PopupAsync A)
  (s : Popup.t) (b : B) : PopupOutcome B A :=
  match p with
  | PReturn a => mkPopupOutcome (Normal a) s b []
  | PThrow m => mkPopupOutcome (Abrupt m) s b []
  | PSend message k =>
      let o := run_popup worker (k (fst (worker message b))) s
                         (snd (worker message b)) in
      mkPopupOutcome (popup_completion o) (popup_final o) (worker_final o)
                     (message :: sent o)
  | PRead k => run_popup worker (k s) s b
  | PWrite s' k => run_popup worker k s' b
  end.

(** The service worker as the other end: the listener runs on the host
    and its answer comes back. *)
Definition background {H : Type} (host : Host H) : Worker (H * Registry) :=
  fun message b =>
    let o := run host (onMessage message) (fst b) (snd b) in
    (match completion o with
     | Normal response => Fulfilled (Some response)
     | Abrupt m => Rejected m
     end,
     (final_host o, final_registry o)).

(** A decimal [parseInt] for unsigned digit strings, enough to run
    [handleSplit] on the values of the tab options. *)
Fixpoint digits_value (s : string) (acc : Z) : option Z :=
  match s with
  | EmptyString => Some acc
  | String c rest =>
      let n := Z.of_nat (Ascii.nat_of_ascii c) in
      if (48 <=? n) && (n <=? 57)
      then digits_value rest (10 * acc + (n - 48))
      else None
  end.

Definition parse_digits (s : string) : JsNumber :=
  match s with
  | EmptyString => NaN
  | _ => match digits_value s 0 with
         | Some z => Finite (inject_Z z)
         | None => NaN
         end
  end.

(** A popup at rest: tabs loaded, two selected values, nothing under way,
    two reference buttons, no reference window listed. *)
Definition idle_popup (tabs : list Tab.t) (left right : string) : Popup.t :=
  Popup.mk tabs false left right false false false true [false; false]
           false "" "status-message hidden" 0.

(** * Proofs *)

(** ** JavaScript values *)

Lemma validation_passes (v : JsValue) :
  js_not v || negb (typeof v =? "number")%string = false <->
  nonzero_number v.
Proof.
  destruct v as [| | b | [q | | s] | s | r]; simpl;
    try (split; [discriminate | contradiction]);
    try (destruct b; split; [discriminate | contradiction
                             | discriminate | contradiction]).
  - unfold js_not; simpl. rewrite negb_involutive, orb_false_r.
    rewrite <- Qeq_bool_iff. destruct (Qeq_bool q 0); split; congruence.
  - split; auto.
  - split; [ | contradiction].
    unfold js_not; simpl. rewrite orb_true_r. discriminate.
Qed.

Lemma validation_both (l r : JsValue) :
  js_not l || js_not r || negb (typeof l =? "number")%string
    || negb (typeof r =? "number")%string = false <->
  nonzero_number l /\ nonzero_number r.
Proof.
  rewrite <- !validation_passes.
  destruct (js_not l), (js_not r), (typeof l =? "number")%string,
    (typeof r =? "number")%string; simpl; intuition congruence.
Qed.

Lemma Qeq_bool_inject_Z (a b : Z) :
  Qeq_bool (inject_Z a) (inject_Z b) = (a =? b).
Proof.
  destruct (Z.eqb_spec a b) as [-> | Hne].
  - apply Qeq_bool_iff. reflexivity.
  - destruct (Qeq_bool (inject_Z a) (inject_Z b)) eqn:E; [ | reflexivity].
    apply Qeq_bool_iff in E. unfold Qeq in E; simpl in E. lia.
Qed.

Lemma strict_equal_js_int (a b : Z) :
  strict_equal (js_int a) (js_int b) = (a =? b).
Proof. apply Qeq_bool_inject_Z. Qed.

Lemma nonzero_number_js_int (a : Z) : nonzero_number (js_int a) <-> a <> 0.
Proof.
  simpl. unfold Qeq; simpl. lia.
Qed.

Lemma strict_equal_refl (v : JsValue) :
  nonzero_number v -> strict_equal v v = true.
Proof.
  destruct v as [| | b | [q | | s] | s | r]; simpl; try contradiction.
  - intros _. apply Qeq_bool_iff. reflexivity.
  - intros _. apply eqb_reflx.
Qed.

Section Runs.
Context {H : Type} (host : Host H).

Lemma run_bind {A B : Type} (p : Async A) (f : A -> Async B) h reg :
  run host (bind p f) h reg =
  match completion (run host p h reg) with
  | Normal a =>
      let o1 := run host p h reg in
      let o2 := run host (f a) (final_host o1) (final_registry o1) in
      mkOutcome (completion o2) (final_host o2) (final_registry o2)
                (calls o1 ++ calls o2)
  | Abrupt m =>
      let o1 := run host p h reg in
      mkOutcome (Abrupt m) (final_host o1) (final_registry o1) (calls o1)
  end.
Proof.
  revert h reg.
  induction p as [a | m | c k IH | k IH | r k IH]; intros h reg; simpl.
  - destruct (run host (f a) h reg); reflexivity.
  - reflexivity.
  - rewrite IH.
    destruct (run host (k (fst (host c h))) (snd (host c h)) reg)
      as [[a | m] fh fr cs]; reflexivity.
  - apply IH.
  - apply IH.
Qed.

Lemma run_try_catch {A : Type} (p : Async A) (handler : string -> Async A)
  h reg :
  run host (try_catch p handler) h reg =
  match completion (run host p h reg) with
  | Normal a => run host p h reg
  | Abrupt m =>
      let o1 := run host p h reg in
      let o2 := run host (handler m) (final_host o1) (final_registry o1) in
      mkOutcome (completion o2) (final_host o2) (final_registry o2)
                (calls o1 ++ calls o2)
  end.
Proof.
  revert h reg.
  induction p as [a | m | c k IH | k IH | r k IH]; intros h reg; simpl.
  - reflexivity.
  - destruct (run host (handler m) h reg); reflexivity.
  - rewrite IH.
    destruct (run host (k (fst (host c h))) (snd (host c h)) reg)
      as [[a | m] fh fr cs]; reflexivity.
  - apply IH.
  - apply IH.
Qed.

(** An operation whose outermost [catch] returns a response never
    throws. *)
Lemma run_try_catch_Return {A : Type} (p : Async A) (g : string -> A)
  h reg :
  exists a,
    completion (run host (try_catch p (fun e => Return (g e))) h reg)
    = Normal a.
Proof.
  rewrite run_try_catch.
  destruct (run host p h reg) as [[a | m] fh fr cs]; simpl; eauto.
Qed.

End Runs.

Ltac step :=
  cbn [run bind try_catch await await_catch_null
       referenceWindows_get referenceWindows_size referenceWindows_has
       referenceWindows_add referenceWindows_delete referenceWindows_clear
       completion final_host final_registry calls fst snd].

Ltac settle host :=
  repeat (simpl;
    match goal with
    | |- context [host ?c ?h] =>
        let s := fresh "s" in
        let h' := fresh "h" in
        let E := fresh "E" in
        destruct (host c h) as [s h'] eqn:E; simpl in s; destruct s
    | |- context [is_undefined ?x] => destruct x
    | |- context [match ?x with Some _ => _ | None => _ end] => destruct x
    | |- context [if ?b then _ else _] => destruct b eqn:?
    end).

Section SplitWindow.
Context {H : Type} (host : Host H).

Lemma splitWindow_passed (l r : JsValue) h reg :
  nonzero_number l -> nonzero_number r -> strict_equal l r = false ->
  let o := run host (splitWindow l r) h reg in
  ~ fails_with InvalidInput o /\
  (exists rest, calls o = windows_getCurrent :: rest) /\
  (fails_with WindowTooSmall o <->
   exists cw, fst (host windows_getCurrent h) = Fulfilled cw /\
              (Window.width cw < 400 \/ Window.height cw < 300)) /\
  (fails_with WindowTooSmall o ->
   calls o = [windows_getCurrent] /\ final_registry o = reg /\
   final_host o = snd (host windows_getCurrent h)).
Proof.
  intros Hl Hr Hne.
  assert (Hv := proj2 (validation_both l r) (conj Hl Hr)).
  unfold splitWindow. rewrite Hv, Hne. cbv zeta.
  unfold fails_with. simpl.
  destruct (host windows_getCurrent h) as [[cw | m] h1] eqn:E0; simpl.
  - destruct ((Window.width cw <? 400) || (Window.height cw <? 300))
      eqn:Esmall.
    + apply orb_true_iff in Esmall. rewrite !Z.ltb_lt in Esmall.
      simpl. split; [intros [e He]; discriminate | ].
      split; [eexists; reflexivity | ].
      split; [ | auto].
      split; [intros _; exists cw; auto | intros _; eexists; reflexivity].
    + assert (Hbig : ~ (Window.width cw < 400 \/ Window.height cw < 300)).
      { apply orb_false_iff in Esmall. rewrite !Z.ltb_ge in Esmall. lia. }
      settle host;
        (split; [intros [e He]; discriminate | ];
         split; [eexists; reflexivity | ];
         split; [ | intros [e He]; discriminate];
         split; [intros [e He]; discriminate | ];
         intros (cw' & Hcw & Hs); inversion Hcw; subst; contradiction).
  - split; [intros [e He]; discriminate | ].
    split; [eexists; reflexivity | ].
    split; [ | intros [e He]; discriminate].
    split; [intros [e He]; discriminate | ].
    intros (cw' & Hcw & Hs); discriminate.
Qed.

(** A successful split: what the host was asked, in order. *)
Lemma splitWindow_success (l r : JsValue) h reg data :
  completion (run host (splitWindow l r) h reg) = Normal (Success data) ->
  exists cw,
    fst (host windows_getCurrent h) = Fulfilled cw /\
    400 <= Window.width cw /\ 300 <= Window.height cw /\
    final_registry (run host (splitWindow l r) h reg) = reg /\
    calls (run host (splitWindow l r) h reg) =
      [windows_getCurrent; tabs_get l; tabs_get r;
       windows_create (spread l (leftWindowBounds cw) true);
       windows_create (spread r (rightWindowBounds cw) false)]
      ++ (if (List.length (tabs_or_empty cw) <=? 2)%nat
          then [windows_remove (Window.id cw)] else []).
Proof.
  unfold splitWindow.
  destruct (js_not l || js_not r || negb (typeof l =? "number")%string
            || negb (typeof r =? "number")%string); [discriminate | ].
  destruct (strict_equal l r); [discriminate | ].
  simpl.
  destruct (host windows_getCurrent h) as [[cw | m] h1] eqn:E0; simpl;
    [ | discriminate].
  destruct ((Window.width cw <? 400) || (Window.height cw <? 300))
    eqn:Esmall; [discriminate | ].
  apply orb_false_iff in Esmall. rewrite !Z.ltb_ge in Esmall.
  intros Hok. exists cw.
  split; [reflexivity | ]. split; [tauto | ]. split; [tauto | ].
  revert Hok.
  settle host; intros Hok; try discriminate; split; reflexivity.
Qed.

Lemma splitWindow_never_throws (l r : JsValue) h reg :
  exists response,
    completion (run host (splitWindow l r) h reg) = Normal response.
Proof.
  unfold splitWindow. apply run_try_catch_Return.
Qed.

Lemma splitWindow_registry (l r : JsValue) h reg :
  final_registry (run host (splitWindow l r) h reg) = reg.
Proof.
  unfold splitWindow. settle host; reflexivity.
Qed.
End SplitWindow.

(** ** The registry *)

Lemma Set_has_In (s : Registry) (x : Z) : Set_has s x = true <-> In x s.
Proof.
  unfold Set_has. rewrite existsb_exists. split.
  - intros (y & Hy & E). apply Z.eqb_eq in E. subst. exact Hy.
  - intros Hx. exists x. split; [exact Hx | apply Z.eqb_refl].
Qed.

Lemma Set_add_size (s : Registry) (x : Z) :
  (Set_size (Set_add s x) <= S (Set_size s))%nat.
Proof.
  unfold Set_add, Set_size. destruct (Set_has s x).
  - lia.
  - rewrite length_app. simpl. lia.
Qed.

Lemma Set_add_In (s : Registry) (x : Z) : In x (Set_add s x).
Proof.
  unfold Set_add. destruct (Set_has s x) eqn:E.
  - apply Set_has_In. exact E.
  - apply in_or_app. right. left. reflexivity.
Qed.

Lemma Set_delete_size (s : Registry) (x : Z) :
  (Set_size (Set_delete s x) <= Set_size s)%nat.
Proof. apply filter_length_le. Qed.

Lemma Set_delete_not_In (s : Registry) (x : Z) : ~ In x (Set_delete s x).
Proof.
  unfold Set_delete. rewrite filter_In. intros [_ E].
  rewrite Z.eqb_refl in E. discriminate.
Qed.

Section ReferenceWindows.
Context {H : Type} (host : Host H).

Lemma createReferenceWindow_limit (tabId : JsValue) h reg :
  nonzero_number tabId -> (3 <= Set_size reg)%nat ->
  run host (createReferenceWindow tabId) h reg =
  mkOutcome
    (Normal (Failure ReferenceLimitReached
               "Maximum of 3 reference windows allowed"))
    h reg [].
Proof.
  intros Hv Hfull. apply validation_passes in Hv.
  unfold createReferenceWindow. rewrite Hv. step.
  apply Nat.leb_le in Hfull. rewrite Hfull. reflexivity.
Qed.

Lemma createReferenceWindow_invalid (tabId : JsValue) h reg :
  ~ nonzero_number tabId ->
  run host (createReferenceWindow tabId) h reg =
  mkOutcome (Normal (Failure InvalidInput "Invalid tab ID provided"))
            h reg [].
Proof.
  intros Hv. rewrite <- validation_passes in Hv.
  unfold createReferenceWindow.
  destruct (js_not tabId || negb (typeof tabId =? "number")%string);
    [reflexivity | congruence].
Qed.

(** Every way [createReferenceWindow] can end. *)
Lemma createReferenceWindow_outcome (tabId : JsValue) h reg :
  let o := run host (createReferenceWindow tabId) h reg in
  (exists kind error,
     completion o = Normal (Failure kind error) /\
     final_registry o = reg /\
     ((3 <= Set_size reg)%nat -> calls o = [])) \/
  (exists data d rw,
     completion o = Normal (Success data) /\
     (Set_size reg < 3)%nat /\
     calls o = [tabs_get tabId; windows_getCurrent; windows_create d] /\
     fst (host (windows_create d)
            (snd (host windows_getCurrent
                    (snd (host (tabs_get tabId) h)))))
       = Fulfilled (Some rw) /\
     windowId data = Window.id rw /\
     final_registry o = Set_add reg (Window.id rw)).
Proof.
  unfold createReferenceWindow.
  destruct (js_not tabId || negb (typeof tabId =? "number")%string).
  { left. simpl. eauto 10. }
  step.
  destruct (3 <=? Set_size reg)%nat eqn:Esize.
  { left. simpl. eauto 10. }
  apply Nat.leb_gt in Esize.
  simpl.
  destruct (host (tabs_get tabId) h) as [[[tab | ] | m] h1] eqn:E1; simpl.
  2, 3: left; do 2 eexists; repeat split; try reflexivity; intros;
    exfalso; unfold Set_size in *; lia.
  destruct (host windows_getCurrent h1) as [[cw | m] h2] eqn:E2; simpl.
  2: left; do 2 eexists; repeat split; try reflexivity; intros;
    exfalso; unfold Set_size in *; lia.
  match goal with
  | |- context [host (windows_create ?d) h2] =>
      destruct (host (windows_create d) h2) as [[[rw | ] | m] h3] eqn:E3
  end; simpl.
  2, 3: left; do 2 eexists; repeat split; try reflexivity; intros;
    exfalso; unfold Set_size in *; lia.
  right. do 3 eexists. rewrite E3. simpl.
  repeat split; try reflexivity. exact Esize.
Qed.

Lemma closeReferenceWindow_untracked (windowId : Z) h reg :
  ~ In windowId reg ->
  run host (closeReferenceWindow windowId) h reg =
  mkOutcome
    (Normal (Failure NotTracked "Window is not a tracked reference window"))
    h reg [].
Proof.
  intros Hout. rewrite <- Set_has_In in Hout.
  unfold closeReferenceWindow. simpl.
  destruct (Set_has reg windowId); [congruence | reflexivity].
Qed.

Lemma closeReferenceWindow_tracked (windowId : Z) h reg :
  In windowId reg ->
  run host (closeReferenceWindow windowId) h reg =
  match fst (host (windows_remove windowId) h) with
  | Fulfilled _ =>
      mkOutcome (Normal (Success windowId))
                (snd (host (windows_remove windowId) h))
                (Set_delete reg windowId) [windows_remove windowId]
  | Rejected m =>
      mkOutcome (Normal (Failure HostOperationFailed m))
                (snd (host (windows_remove windowId) h))
                reg [windows_remove windowId]
  end.
Proof.
  intros Hin. rewrite <- Set_has_In in Hin.
  unfold closeReferenceWindow. simpl. rewrite Hin. simpl.
  destruct (host (windows_remove windowId) h) as [[[] | m] h1];
    reflexivity.
Qed.

Lemma closePromises_run (ids : list Z) h reg :
  exists settled h',
    run host (closePromises ids) h reg =
    mkOutcome (Normal settled) h' reg (map windows_remove ids).
Proof.
  revert h. induction ids as [ | windowId rest IH]; intros h; simpl.
  - eauto.
  - destruct (host (windows_remove windowId) h) as [[[] | m] h1]; simpl;
      rewrite run_bind;
      destruct (IH h1) as (settled & h' & ->); simpl;
      rewrite app_nil_r; eauto.
Qed.

Lemma closeAllReferenceWindows_run h reg :
  exists h',
    run host closeAllReferenceWindows h reg =
    mkOutcome (Normal (Success (List.length reg))) h' []
              (map windows_remove reg).
Proof.
  unfold closeAllReferenceWindows. simpl.
  rewrite run_try_catch, run_bind.
  destruct (closePromises_run reg h reg) as (settled & h' & ->).
  simpl. rewrite app_nil_r. eauto.
Qed.

End ReferenceWindows.

(** ** Arrays *)

Lemma findIndex_range {A : Type} (p : A -> bool) (array : list A) :
  -1 <= findIndex p array < Z.of_nat (List.length array).
Proof.
  induction array as [ | x rest IH]; simpl.
  - lia.
  - destruct (p x); [lia | ].
    destruct (Z.ltb_spec (findIndex p rest) 0); lia.
Qed.

Lemma findIndex_first {A : Type} (p : A -> bool) (array : list A)
  (i : nat) (x : A) :
  nth_error array i = Some x -> p x = true ->
  (forall j y, (j < i)%nat -> nth_error array j = Some y -> p y = false) ->
  findIndex p array = Z.of_nat i.
Proof.
  revert i. induction array as [ | a rest IH]; intros i Hi Hp Hbefore.
  - destruct i; discriminate.
  - destruct i as [ | i]; simpl in Hi.
    + inversion Hi; subst. simpl. rewrite Hp. reflexivity.
    + simpl. rewrite (Hbefore 0%nat a) by (simpl; auto; lia).
      rewrite (IH i Hi Hp).
      * destruct (Z.ltb_spec (Z.of_nat i) 0); lia.
      * intros j y Hj Hy. apply (Hbefore (S j) y); [lia | exact Hy].
Qed.

Lemma array_at_nat {A : Type} (array : list A) (i : nat) :
  array_at array (Z.of_nat i) = nth_error array i.
Proof.
  unfold array_at. destruct (Z.ltb_spec (Z.of_nat i) 0); [lia | ].
  rewrite Nat2Z.id. reflexivity.
Qed.

(** [array[i + 1] || array[0]] is the element after [i], cyclically. *)
Lemma next_or_first {A : Type} (array : list A) (i : nat) :
  (i < List.length array)%nat ->
  or_else (array_at array (Z.of_nat i + 1)) (array_at array 0) =
  nth_error array ((i + 1) mod List.length array).
Proof.
  intros Hi.
  replace (Z.of_nat i + 1) with (Z.of_nat (i + 1)) by lia.
  rewrite array_at_nat.
  destruct (Nat.eq_dec (i + 1) (List.length array)) as [Hlast | Hmid].
  - rewrite Hlast, Nat.Div0.mod_same.
    rewrite (proj2 (nth_error_None array (List.length array)))
      by apply Nat.le_refl.
    reflexivity.
  - rewrite Nat.mod_small by lia.
    destruct (nth_error array (i + 1)) eqn:E; [reflexivity | ].
    apply nth_error_None in E. lia.
Qed.

Section QuickSplit.
Context {H : Type} (host : Host H).

Lemma getCurrentWindowTabs_run h reg :
  run host getCurrentWindowTabs h reg =
  mkOutcome
    (Normal match fst (host windows_getCurrent h) with
            | Fulfilled currentWindow =>
                match Window.tabs currentWindow with
                | Some tabs => tabs
                | None => []
                end
            | Rejected _ => []
            end)
    (snd (host windows_getCurrent h)) reg [windows_getCurrent].
Proof.
  unfold getCurrentWindowTabs. simpl.
  destruct (host windows_getCurrent h) as [[cw | m] h1]; reflexivity.
Qed.

Lemma quickSplit_insufficient h reg tabs :
  completion (run host getCurrentWindowTabs h reg) = Normal tabs ->
  (List.length tabs < 2)%nat ->
  run host quickSplit h reg =
  mkOutcome
    (Normal (Failure InsufficientTabs "Need at least 2 tabs to split"))
    (final_host (run host getCurrentWindowTabs h reg)) reg
    [windows_getCurrent].
Proof.
  intros Htabs Hfew. unfold quickSplit. rewrite run_bind.
  rewrite getCurrentWindowTabs_run in Htabs |- *.
  destruct (host windows_getCurrent h) as [[cw | m] h1];
    step; cbn [completion fst] in Htabs; injection Htabs as Etabs;
    rewrite Etabs; apply Nat.leb_gt in Hfew; rewrite Hfew; reflexivity.
Qed.

Lemma quickSplit_delegates h reg tabs (i : nat) (leftTab : Tab.t) :
  completion (run host getCurrentWindowTabs h reg) = Normal tabs ->
  (2 <= List.length tabs)%nat ->
  nth_error tabs i = Some leftTab ->
  Tab.active leftTab = true ->
  (forall j t, (j < i)%nat -> nth_error tabs j = Some t ->
               Tab.active t = false) ->
  exists rightTab,
    nth_error tabs ((i + 1) mod List.length tabs) = Some rightTab /\
    let o := run host (splitWindow (js_int (Tab.id leftTab))
                                   (js_int (Tab.id rightTab)))
                 (final_host (run host getCurrentWindowTabs h reg)) reg in
    run host quickSplit h reg =
    mkOutcome (completion o) (final_host o) (final_registry o)
              (windows_getCurrent :: calls o).
Proof.
  intros Htabs Hmany Hleft Hactive Hfirst.
  assert (Hi : (i < List.length tabs)%nat).
  { apply nth_error_Some. congruence. }
  destruct (nth_error tabs ((i + 1) mod List.length tabs))
    as [rightTab | ] eqn:Hright.
  2: { apply nth_error_None in Hright.
       pose proof (Nat.mod_upper_bound (i + 1) (List.length tabs)). lia. }
  exists rightTab. split; [reflexivity | ].
  apply Nat.leb_le in Hmany.
  pose proof (findIndex_first Tab.active tabs i leftTab
                Hleft Hactive Hfirst) as Hindex.
  pose proof (next_or_first tabs i Hi) as Hnext.
  unfold quickSplit. rewrite run_bind.
  rewrite getCurrentWindowTabs_run in Htabs |- *.
  destruct (host windows_getCurrent h) as [[cw | m] h1];
    step; cbn [completion fst] in Htabs; injection Htabs as Etabs;
    rewrite Etabs, Hmany, Hindex, array_at_nat, Hleft, Hnext, Hright;
    reflexivity.
Qed.

Lemma quickSplit_registry h reg :
  final_registry (run host quickSplit h reg) = reg.
Proof.
  unfold quickSplit. rewrite run_bind, getCurrentWindowTabs_run. step.
  match goal with
  | |- context [(2 <=? ?n)%nat] => destruct (2 <=? n)%nat
  end; [ | reflexivity].
  match goal with
  | |- context [array_at ?a ?i] => destruct (array_at a i)
  end; [ | reflexivity].
  match goal with
  | |- context [or_else ?a ?b] => destruct (or_else a b)
  end; [ | reflexivity].
  step. apply splitWindow_registry.
Qed.

End QuickSplit.

(** ** The registry across all operations *)

Section Invariant.
Context {H : Type} (host : Host H).

Lemma run_bind_Return_registry {A B : Type} (p : Async A) (f : A -> B)
  h reg :
  final_registry (run host (bind p (fun x => Return (f x))) h reg) =
  final_registry (run host p h reg).
Proof.
  rewrite run_bind.
  destruct (run host p h reg) as [[a | m] fh fr cs]; reflexivity.
Qed.

Lemma run_try_catch_Return_registry {A : Type} (p : Async A)
  (g : string -> A) h reg :
  final_registry (run host (try_catch p (fun e => Return (g e))) h reg) =
  final_registry (run host p h reg).
Proof.
  rewrite run_try_catch.
  destruct (run host p h reg) as [[a | m] fh fr cs]; reflexivity.
Qed.

Lemma getTabInfo_registry tabId h reg :
  final_registry (run host (getTabInfo tabId) h reg) = reg.
Proof.
  unfold getTabInfo. simpl.
  destruct (host (tabs_get tabId) h) as [[tab | m] h1]; reflexivity.
Qed.

Lemma createReferenceWindow_bound tabId h reg :
  (Set_size reg <= 3)%nat ->
  (Set_size (final_registry (run host (createReferenceWindow tabId) h reg))
   <= 3)%nat.
Proof.
  intros Hreg.
  destruct (createReferenceWindow_outcome host tabId h reg)
    as [(kind & error & _ & -> & _)
       | (data & d & rw & _ & Hroom & _ & _ & _ & ->)].
  - exact Hreg.
  - pose proof (Set_add_size reg (Window.id rw)). lia.
Qed.

Lemma closeReferenceWindow_bound windowId h reg :
  (Set_size (final_registry (run host (closeReferenceWindow windowId) h reg))
   <= Set_size reg)%nat.
Proof.
  destruct (in_dec Z.eq_dec windowId reg) as [Hin | Hout].
  - rewrite closeReferenceWindow_tracked by exact Hin.
    destruct (fst (host (windows_remove windowId) h)); simpl.
    + apply Set_delete_size.
    + apply Nat.le_refl.
  - rewrite closeReferenceWindow_untracked by exact Hout. apply Nat.le_refl.
Qed.

Lemma onRemoved_bound windowId h reg :
  (Set_size (final_registry (run host (onRemoved windowId) h reg))
   <= Set_size reg)%nat.
Proof.
  unfold onRemoved. step. destruct (Set_has reg windowId); step.
  - apply Set_delete_size.
  - apply Nat.le_refl.
Qed.

Lemma perform_bound (op : Operation) h reg :
  (Set_size reg <= 3)%nat ->
  (Set_size (final_registry (run host (perform op) h reg)) <= 3)%nat.
Proof.
  intros Hreg. destruct op as [request | windowId]; unfold perform.
  - rewrite run_bind_Return_registry. unfold onMessage.
    rewrite run_try_catch_Return_registry.
    destruct request as [ | l r | t | | t | w | | | ];
      try rewrite run_bind_Return_registry.
    + rewrite getCurrentWindowTabs_run. exact Hreg.
    + rewrite splitWindow_registry. exact Hreg.
    + rewrite getTabInfo_registry. exact Hreg.
    + rewrite quickSplit_registry. exact Hreg.
    + apply createReferenceWindow_bound. exact Hreg.
    + pose proof (closeReferenceWindow_bound w h reg). lia.
    + destruct (closeAllReferenceWindows_run host h reg) as (h' & ->).
      simpl. lia.
    + exact Hreg.
    + exact Hreg.
  - rewrite run_bind_Return_registry.
    pose proof (onRemoved_bound windowId h reg). lia.
Qed.

End Invariant.

Section Rectangles.
Context {H : Type} (host : Host H).

Lemma splitWindow_creates (l r : JsValue) h reg (d : CreateData.t) :
  In (windows_create d) (calls (run host (splitWindow l r) h reg)) ->
  exists cw,
    fst (host windows_getCurrent h) = Fulfilled cw /\
    400 <= Window.width cw /\ 300 <= Window.height cw /\
    (d = spread l (leftWindowBounds cw) true \/
     d = spread r (rightWindowBounds cw) false).
Proof.
  unfold splitWindow.
  destruct (js_not l || js_not r || negb (typeof l =? "number")%string
            || negb (typeof r =? "number")%string); [contradiction | ].
  destruct (strict_equal l r); [contradiction | ].
  simpl.
  destruct (host windows_getCurrent h) as [[cw | m] h1] eqn:E0; simpl;
    [ | intros [Hd | []]; discriminate].
  destruct ((Window.width cw <? 400) || (Window.height cw <? 300))
    eqn:Esmall; [intros [Hd | []]; discriminate | ].
  apply orb_false_iff in Esmall. rewrite !Z.ltb_ge in Esmall.
  intros Hin. exists cw.
  split; [reflexivity | ]. split; [tauto | ]. split; [tauto | ].
  revert Hin.
  settle host; intros Hin; simpl in Hin;
    repeat match goal with
      | Hor : _ \/ _ |- _ => destruct Hor as [Hor | Hor]
      | Hf : False |- _ => contradiction
      | Heq : _ = windows_create d |- _ =>
          first [discriminate Heq | injection Heq as <-]
      end;
    auto.
Qed.
End Rectangles.

(** ** Overlapping calls *)

Section Turns.
Context {H : Type} (host : Host H).

Lemma run_until_await {A : Type} (p : Async A) h reg :
  run host p h reg
  = run host (fst (until_await p reg)) h (snd (until_await p reg)).
Proof.
  revert reg.
  induction p as [a | m | c k IH | k IH | r k IH]; intros reg; simpl;
    auto.
Qed.

(** Taking a turn and then running to completion is running to
    completion: [run] is the schedule in which a call has every turn. *)
Lemma run_turn {A : Type} (p : Async A) h reg :
  let o := run host p h reg in
  let o' := run host (fst (fst (turn host p h reg)))
                (snd (fst (turn host p h reg))) (snd (turn host p h reg)) in
  completion o = completion o' /\
  final_host o = final_host o' /\
  final_registry o = final_registry o'.
Proof.
  cbv zeta. rewrite (run_until_await p h reg). unfold turn.
  destruct (fst (until_await p reg)) as [a | m | c k | k | r k]; simpl; auto.
Qed.

End Turns.

(** Run one after the other, the second of two [createReferenceWindow]
    calls is refused at the limit; overlapping, both pass the size check
    before either adds its window, and four windows end up tracked. *)
Example overlapping_creates_exceed_limit :
  fst (fst overlapping_creates)
    = [Return (Success {| windowId := 100; tabId := js_int 11;
                          dimensions := (160, 600) |});
       Return (Success {| windowId := 101; tabId := js_int 12;
                          dimensions := (160, 600) |})] /\
  snd overlapping_creates = [201; 202; 100; 101] /\
  (3 < Set_size (snd overlapping_creates))%nat.
Proof.
  split; [reflexivity | ]. split; [reflexivity | ]. simpl. lia.
Qed.

(** * The claims *)

(** ** C1: the two rectangles *)

(** C1, at an odd width.  A window 401 wide is accepted and split into two
    rectangles 200 wide: their widths sum to 400, and the right one is not
    [W - floor(W/2) = 201]. *)
Lemma splitWindow_odd_width_loses_a_pixel :
  400 <= Window.width odd_window /\
  completion odd_split
    = Normal (Success {| leftWindow := 100; rightWindow := 101 |}) /\
  filter is_create (calls odd_split)
    = [windows_create
         (spread (js_int 11) (Rect.mk 0 0 200 300) true);
       windows_create
         (spread (js_int 12) (Rect.mk 200 0 200 300) false)] /\
  Rect.width (leftWindowBounds odd_window)
    + Rect.width (rightWindowBounds odd_window)
    <> Window.width odd_window /\
  Rect.width (rightWindowBounds odd_window)
    <> Window.width odd_window - Window.width odd_window / 2.
Proof.
  split; [vm_compute; discriminate | ].
  split; [reflexivity | ].
  split; [reflexivity | ].
  split; vm_compute; discriminate.
Qed.

(** C1, as the code has it.  Every rectangle [splitWindow] hands to the
    host belongs to a fetched window at least 400 wide and 300 high, is
    the left or the right bounds of that window, is [floor(W/2)] wide and
    as high as the window.  On success exactly the two are requested, left
    (focused) then right (unfocused); the right one starts where the left
    one ends, and the widths sum to [W - W mod 2]: [W] for even [W],
    [W - 1] for odd [W]. *)
Theorem splitWindow_rectangles {H : Type} (host : Host H)
  (l r : JsValue) (h : H) (reg : Registry) :
  let o := run host (splitWindow l r) h reg in
  (forall d, In (windows_create d) (calls o) ->
     exists cw,
       fst (host windows_getCurrent h) = Fulfilled cw /\
       400 <= Window.width cw /\
       (d = spread l (leftWindowBounds cw) true \/
        d = spread r (rightWindowBounds cw) false) /\
       CreateData.width d = Window.width cw / 2 /\
       CreateData.height d = Window.height cw) /\
  (forall data, completion o = Normal (Success data) ->
     exists cw,
       fst (host windows_getCurrent h) = Fulfilled cw /\
       400 <= Window.width cw /\
       filter is_create (calls o)
         = [windows_create (spread l (leftWindowBounds cw) true);
            windows_create (spread r (rightWindowBounds cw) false)] /\
       Rect.width (leftWindowBounds cw) = Window.width cw / 2 /\
       Rect.width (rightWindowBounds cw) = Window.width cw / 2 /\
       Rect.width (leftWindowBounds cw) + Rect.width (rightWindowBounds cw)
         = Window.width cw - Window.width cw mod 2 /\
       Rect.left (rightWindowBounds cw)
         = Rect.left (leftWindowBounds cw)
           + Rect.width (leftWindowBounds cw) /\
       Rect.height (leftWindowBounds cw) = Window.height cw /\
       Rect.height (rightWindowBounds cw) = Window.height cw).
Proof.
  intros o. split.
  - intros d Hin.
    destruct (splitWindow_creates host l r h reg d Hin)
      as (cw & Hcw & Hw & _ & Hd).
    exists cw. repeat split; auto; destruct Hd as [-> | ->]; reflexivity.
  - intros data Hok.
    destruct (splitWindow_success host l r h reg data Hok)
      as (cw & Hcw & Hw & _ & _ & Hcalls).
    exists cw. split; [exact Hcw | ]. split; [exact Hw | ].
    split.
    { subst o. rewrite Hcalls.
      destruct (List.length (tabs_or_empty cw) <=? 2)%nat; reflexivity. }
    unfold leftWindowBounds, rightWindowBounds, halfWidth; simpl.
    repeat split; try reflexivity.
    pose proof (Z.div_mod (Window.width cw) 2). lia.
Qed.

Lemma splitWindow_rectangles_witness :
  exists cw,
    fst (scripted windows_getCurrent (script_of odd_window false))
      = Fulfilled cw /\
    400 <= Window.width cw /\
    filter is_create (calls odd_split)
      = [windows_create (spread (js_int 11) (leftWindowBounds cw) true);
         windows_create (spread (js_int 12) (rightWindowBounds cw) false)] /\
    Rect.width (leftWindowBounds cw) = Window.width cw / 2 /\
    Rect.width (rightWindowBounds cw) = Window.width cw / 2 /\
    Rect.width (leftWindowBounds cw) + Rect.width (rightWindowBounds cw)
      = Window.width cw - Window.width cw mod 2 /\
    Rect.left (rightWindowBounds cw)
      = Rect.left (leftWindowBounds cw) + Rect.width (leftWindowBounds cw) /\
    Rect.height (leftWindowBounds cw) = Window.height cw /\
    Rect.height (rightWindowBounds cw) = Window.height cw.
Proof.
  apply (proj2 (splitWindow_rectangles scripted (js_int 11) (js_int 12)
                  (script_of odd_window false) [])
           {| leftWindow := 100; rightWindow := 101 |}).
  reflexivity.
Defined.

(** ** C2: validation of the two ids *)

(** C2, at the ids [0] and [5]: distinct integers, neither of them
    [null], yet the call is answered with [InvalidInput].  And at [1.5]
    and [2.5]: not integers, yet they pass the validation; the window is
    fetched and it is the tab lookup that fails. *)
Lemma splitWindow_rejects_zero_id :
  0 <> 5 /\
  completion zero_split
    = Normal (Failure InvalidInput "Invalid tab IDs provided") /\
  calls zero_split = [] /\
  completion fractional_split
    = Normal (Failure TabNotFound "Invalid tab IDs or tabs not accessible") /\
  calls fractional_split
    = [windows_getCurrent; tabs_get (JsNum (Finite (3 # 2)))].
Proof.
  split; [discriminate | ]. repeat split.
Qed.

(** C2, as the code has it.  [splitWindow] answers [InvalidInput] exactly
    when the two arguments are not both numbers other than [0] and [NaN],
    or are equal under [===].  So [splitWindow(id, id)] is [InvalidInput]
    for every value [id], and two distinct non-zero integers pass: the
    call is not [InvalidInput] and goes on to fetch the current window. *)
Theorem splitWindow_validation {H : Type} (host : Host H)
  (h : H) (reg : Registry) :
  (forall l r,
     fails_with InvalidInput (run host (splitWindow l r) h reg) <->
     ~ (nonzero_number l /\ nonzero_number r) \/ strict_equal l r = true) /\
  (forall id, fails_with InvalidInput (run host (splitWindow id id) h reg)) /\
  (forall a b : Z, a <> 0 -> b <> 0 -> a <> b ->
     ~ fails_with InvalidInput
         (run host (splitWindow (js_int a) (js_int b)) h reg) /\
     exists rest,
       calls (run host (splitWindow (js_int a) (js_int b)) h reg)
       = windows_getCurrent :: rest).
Proof.
  assert (Hiff : forall l r,
     fails_with InvalidInput (run host (splitWindow l r) h reg) <->
     ~ (nonzero_number l /\ nonzero_number r) \/ strict_equal l r = true).
  { intros l r. split.
    - intros Hfail.
      destruct (strict_equal l r) eqn:Eeq; [right; reflexivity | left].
      intros [Hl Hr].
      destruct (splitWindow_passed host l r h reg Hl Hr Eeq) as (Hno & _).
      exact (Hno Hfail).
    - intros Hbad. unfold splitWindow.
      destruct (js_not l || js_not r || negb (typeof l =? "number")%string
                || negb (typeof r =? "number")%string) eqn:Ev.
      + eexists; reflexivity.
      + apply validation_both in Ev.
        destruct Hbad as [Hbad | ->]; [contradiction | ].
        eexists; reflexivity. }
  split; [exact Hiff | ]. split.
  - intros id. apply Hiff.
    destruct (strict_equal id id) eqn:Eeq; [right; reflexivity | left].
    intros [Hid _]. rewrite (strict_equal_refl id Hid) in Eeq. discriminate.
  - intros a b Ha Hb Hab.
    assert (Hne : strict_equal (js_int a) (js_int b) = false).
    { rewrite strict_equal_js_int. apply Z.eqb_neq. exact Hab. }
    apply nonzero_number_js_int in Ha, Hb.
    destruct (splitWindow_passed host _ _ h reg Ha Hb Hne)
      as (Hno & Hfetch & _).
    split; assumption.
Qed.

Lemma splitWindow_validation_witness :
  ~ fails_with InvalidInput
      (run scripted (splitWindow (js_int 11) (js_int 12))
           (script_of large_window false) []) /\
  exists rest,
    calls (run scripted (splitWindow (js_int 11) (js_int 12))
               (script_of large_window false) [])
    = windows_getCurrent :: rest.
Proof.
  apply (proj2 (proj2 (splitWindow_validation scripted
                         (script_of large_window false) [])) 11 12);
    discriminate.
Defined.

(** ** C3: a window too small to split *)

(** C3, at the ids [0] and [5] and a window 200 x 100: the ids are
    distinct integers, the window is too small, but the answer is
    [InvalidInput] and the window is never fetched. *)
Lemma splitWindow_zero_id_small_window :
  0 <> 5 /\
  Window.width small_zero_window < 400 /\
  completion small_zero_split
    = Normal (Failure InvalidInput "Invalid tab IDs provided") /\
  ~ fails_with WindowTooSmall small_zero_split.
Proof.
  split; [discriminate | ]. split; [reflexivity | ]. split; [reflexivity | ].
  intros [error Herror]. discriminate.
Qed.

(** C3, as the code has it.  Given two distinct non-zero integer tab ids,
    [splitWindow] answers [WindowTooSmall] exactly when the current window
    was fetched and is less than 400 wide or less than 300 high; the fetch
    is then the only host call, so no window is created or removed, and
    the registry is unchanged. *)
Theorem splitWindow_too_small {H : Type} (host : Host H)
  (a b : Z) (h : H) (reg : Registry) :
  a <> 0 -> b <> 0 -> a <> b ->
  let o := run host (splitWindow (js_int a) (js_int b)) h reg in
  (fails_with WindowTooSmall o <->
   exists cw, fst (host windows_getCurrent h) = Fulfilled cw /\
              (Window.width cw < 400 \/ Window.height cw < 300)) /\
  (fails_with WindowTooSmall o ->
   calls o = [windows_getCurrent] /\ final_registry o = reg).
Proof.
  intros Ha Hb Hab o.
  assert (Hne : strict_equal (js_int a) (js_int b) = false).
  { rewrite strict_equal_js_int. apply Z.eqb_neq. exact Hab. }
  apply nonzero_number_js_int in Ha, Hb.
  destruct (splitWindow_passed host _ _ h reg Ha Hb Hne)
    as (_ & _ & Hiff & Hquiet).
  split; [exact Hiff | ].
  intros Hfail. destruct (Hquiet Hfail) as (Hcalls & Hreg & _).
  split; assumption.
Qed.

Lemma splitWindow_too_small_witness :
  calls (run scripted (splitWindow (js_int 11) (js_int 12))
             (script_of small_window false) full_registry)
    = [windows_getCurrent] /\
  final_registry (run scripted (splitWindow (js_int 11) (js_int 12))
                      (script_of small_window false) full_registry)
    = full_registry.
Proof.
  apply (proj2 (splitWindow_too_small scripted 11 12
                  (script_of small_window false) full_registry
                  ltac:(discriminate) ltac:(discriminate)
                  ltac:(discriminate))).
  eexists. reflexivity.
Defined.

(** ** C4: closing the originating window *)

(** C4.  After a successful [splitWindow], if the fetched window held at
    most 2 tabs, exactly one removal is requested, and it is for that
    window; if it held more than 2 tabs, no removal is requested: the
    calls are the fetch, the two lookups and the two creations, and
    nothing else touches the window or its other tabs. *)
Theorem splitWindow_cleanup {H : Type} (host : Host H)
  (l r : JsValue) (h : H) (reg : Registry) (data : SplitData) :
  completion (run host (splitWindow l r) h reg) = Normal (Success data) ->
  exists cw,
    fst (host windows_getCurrent h) = Fulfilled cw /\
    ((List.length (tabs_or_empty cw) <= 2)%nat ->
     filter is_remove (calls (run host (splitWindow l r) h reg))
       = [windows_remove (Window.id cw)] /\
     count_occ Z.eq_dec (removed (calls (run host (splitWindow l r) h reg)))
               (Window.id cw) = 1%nat) /\
    ((2 < List.length (tabs_or_empty cw))%nat ->
     filter is_remove (calls (run host (splitWindow l r) h reg)) = [] /\
     calls (run host (splitWindow l r) h reg)
       = [windows_getCurrent; tabs_get l; tabs_get r;
          windows_create (spread l (leftWindowBounds cw) true);
          windows_create (spread r (rightWindowBounds cw) false)]).
Proof.
  intros Hok.
  destruct (splitWindow_success host l r h reg data Hok)
    as (cw & Hcw & _ & _ & _ & Hcalls).
  exists cw. split; [exact Hcw | ]. rewrite Hcalls.
  split; intros Hcount.
  - apply Nat.leb_le in Hcount. rewrite Hcount. simpl.
    split; [reflexivity | ].
    destruct (Z.eq_dec (Window.id cw) (Window.id cw)); congruence.
  - apply Nat.leb_gt in Hcount. rewrite Hcount.
    split; reflexivity.
Qed.

Lemma splitWindow_cleanup_witness :
  exists cw,
    fst (scripted windows_getCurrent (script_of large_window false))
      = Fulfilled cw /\
    ((List.length (tabs_or_empty cw) <= 2)%nat ->
     filter is_remove
       (calls (run scripted (splitWindow (js_int 11) (js_int 12))
                   (script_of large_window false) []))
       = [windows_remove (Window.id cw)] /\
     count_occ Z.eq_dec
       (removed (calls (run scripted (splitWindow (js_int 11) (js_int 12))
                            (script_of large_window false) [])))
       (Window.id cw) = 1%nat) /\
    ((2 < List.length (tabs_or_empty cw))%nat ->
     filter is_remove
       (calls (run scripted (splitWindow (js_int 11) (js_int 12))
                   (script_of large_window false) [])) = [] /\
     calls (run scripted (splitWindow (js_int 11) (js_int 12))
                (script_of large_window false) [])
       = [windows_getCurrent; tabs_get (js_int 11); tabs_get (js_int 12);
          windows_create (spread (js_int 11) (leftWindowBounds cw) true);
          windows_create (spread (js_int 12) (rightWindowBounds cw) false)]).
Proof.
  apply (splitWindow_cleanup scripted (js_int 11) (js_int 12)
           (script_of large_window false) []
           {| leftWindow := 100; rightWindow := 101 |}).
  reflexivity.
Defined.

(** ** C5: at most three reference windows *)

(** C5, at the tab id [0] with three windows tracked: the answer is
    [InvalidInput], not [ReferenceLimitReached]. *)
Lemma createReferenceWindow_zero_id_at_limit :
  Set_size full_registry = 3%nat /\
  completion zero_reference
    = Normal (Failure InvalidInput "Invalid tab ID provided") /\
  ~ fails_with ReferenceLimitReached zero_reference.
Proof.
  split; [reflexivity | ]. split; [reflexivity | ].
  intros [error Herror]. discriminate.
Qed.

(** C5, as the code has it.  Every operation of the worker, run to
    completion, keeps the registry at 3 entries or fewer.  With 3 entries
    tracked, [createReferenceWindow] answers [ReferenceLimitReached] for
    every tab id that passes its validation (a number other than [0] and
    [NaN]); any other tab id is answered with [InvalidInput].  Either way
    no host call is made and the registry is unchanged. *)
Theorem referenceWindows_bounded {H : Type} (host : Host H)
  (h : H) (reg : Registry) :
  (forall op, (Set_size reg <= 3)%nat ->
     (Set_size (final_registry (run host (perform op) h reg)) <= 3)%nat) /\
  (forall tabId, nonzero_number tabId -> Set_size reg = 3%nat ->
     run host (createReferenceWindow tabId) h reg
     = mkOutcome (Normal (Failure ReferenceLimitReached
                            "Maximum of 3 reference windows allowed"))
                 h reg []) /\
  (forall tabId, ~ nonzero_number tabId ->
     run host (createReferenceWindow tabId) h reg
     = mkOutcome (Normal (Failure InvalidInput "Invalid tab ID provided"))
                 h reg []).
Proof.
  split; [ | split].
  - intros op Hreg. apply perform_bound. exact Hreg.
  - intros tabId Hvalid Hfull. apply createReferenceWindow_limit.
    + exact Hvalid.
    + rewrite Hfull. apply Nat.le_refl.
  - intros tabId Hinvalid. apply createReferenceWindow_invalid.
    exact Hinvalid.
Qed.

Lemma referenceWindows_bounded_witness :
  run scripted (createReferenceWindow (js_int 11))
      (script_of large_window false) full_registry
  = mkOutcome (Normal (Failure ReferenceLimitReached
                         "Maximum of 3 reference windows allowed"))
              (script_of large_window false) full_registry [].
Proof.
  apply (proj1 (proj2 (referenceWindows_bounded scripted
                         (script_of large_window false) full_registry))
           (js_int 11)).
  - simpl. discriminate.
  - reflexivity.
Defined.

(** ** C6: closing one reference window *)

(** C6, when the host rejects the removal of a tracked window: the entry
    is still in the registry afterwards. *)
Lemma closeReferenceWindow_keeps_entry_on_rejection :
  In 201 full_registry /\
  calls stuck_close = [windows_remove 201] /\
  completion stuck_close
    = Normal (Failure HostOperationFailed "No window with id") /\
  final_registry stuck_close = full_registry /\
  In 201 (final_registry stuck_close).
Proof.
  split; [left; reflexivity | ].
  split; [reflexivity | ]. split; [reflexivity | ].
  split; [reflexivity | left; reflexivity].
Qed.

(** C6, as the code has it.  For an untracked [windowId],
    [closeReferenceWindow] answers [NotTracked], calls nothing and leaves
    the registry unchanged.  For a tracked one it requests the removal;
    if the host fulfils it the entry is deleted and the answer is a
    success; if the host rejects it the answer is [HostOperationFailed]
    with the host's message and the registry is unchanged. *)
Theorem closeReferenceWindow_spec {H : Type} (host : Host H)
  (windowId : Z) (h : H) (reg : Registry) :
  let o := run host (closeReferenceWindow windowId) h reg in
  (~ In windowId reg ->
     completion o = Normal (Failure NotTracked
                              "Window is not a tracked reference window") /\
     calls o = [] /\ final_registry o = reg) /\
  (In windowId reg ->
     calls o = [windows_remove windowId] /\
     match fst (host (windows_remove windowId) h) with
     | Fulfilled _ =>
         completion o = Normal (Success windowId) /\
         final_registry o = Set_delete reg windowId /\
         ~ In windowId (final_registry o)
     | Rejected message =>
         completion o = Normal (Failure HostOperationFailed message) /\
         final_registry o = reg
     end).
Proof.
  intros o. split.
  - intros Hout. subst o.
    rewrite closeReferenceWindow_untracked by exact Hout. auto.
  - intros Hin. subst o.
    rewrite closeReferenceWindow_tracked by exact Hin.
    destruct (fst (host (windows_remove windowId) h)); simpl.
    + repeat split. apply Set_delete_not_In.
    + auto.
Qed.

Lemma closeReferenceWindow_spec_witness :
  calls (run scripted (closeReferenceWindow 202)
             (script_of large_window false) full_registry)
    = [windows_remove 202] /\
  completion (run scripted (closeReferenceWindow 202)
                  (script_of large_window false) full_registry)
    = Normal (Success 202) /\
  final_registry (run scripted (closeReferenceWindow 202)
                      (script_of large_window false) full_registry)
    = Set_delete full_registry 202 /\
  ~ In 202 (final_registry (run scripted (closeReferenceWindow 202)
                                (script_of large_window false)
                                full_registry)).
Proof.
  apply (proj2 (closeReferenceWindow_spec scripted 202
                  (script_of large_window false) full_registry)).
  right. left. reflexivity.
Defined.

(** ** C7: closing all reference windows *)

(** C7.  [closeAllReferenceWindows] requests the removal of every tracked
    window, one call each in registry order, whatever the host answers to
    any of them; it leaves the registry empty and reports as
    [closedCount] the number of entries tracked before. *)
Theorem closeAllReferenceWindows_clears {H : Type} (host : Host H)
  (h : H) (reg : Registry) :
  calls (run host closeAllReferenceWindows h reg) = map windows_remove reg /\
  final_registry (run host closeAllReferenceWindows h reg) = [] /\
  completion (run host closeAllReferenceWindows h reg)
    = Normal (Success (Set_size reg)).
Proof.
  destruct (closeAllReferenceWindows_run host h reg) as (h' & ->).
  repeat split.
Qed.

(** Every removal rejected: three attempts all the same, and an empty
    registry. *)
Example closeAllReferenceWindows_on_failing_host :
  run failing closeAllReferenceWindows tt full_registry
  = mkOutcome (Normal (Success 3%nat)) tt []
              [windows_remove 201; windows_remove 202; windows_remove 203].
Proof. reflexivity. Qed.

(** ** C8: quickSplit *)

(** C8.  Let [tabs] be what [getCurrentWindowTabs] returns.  With fewer
    than 2 tabs [quickSplit] answers [InsufficientTabs].  Otherwise, if
    [leftTab] is the first tab whose [active] flag is set, at index [i],
    then the right tab is the one at index [(i + 1) mod n], the next tab
    or the first one when the active tab is last, and the answer, the
    further host calls and the final state are those of [splitWindow] on
    the two ids. *)
Theorem quickSplit_selection {H : Type} (host : Host H)
  (h : H) (reg : Registry) (tabs : list Tab.t) :
  completion (run host getCurrentWindowTabs h reg) = Normal tabs ->
  ((List.length tabs < 2)%nat ->
   run host quickSplit h reg
   = mkOutcome
       (Normal (Failure InsufficientTabs "Need at least 2 tabs to split"))
       (final_host (run host getCurrentWindowTabs h reg)) reg
       [windows_getCurrent]) /\
  (forall (i : nat) (leftTab : Tab.t),
     (2 <= List.length tabs)%nat ->
     nth_error tabs i = Some leftTab ->
     Tab.active leftTab = true ->
     (forall j t, (j < i)%nat -> nth_error tabs j = Some t ->
                  Tab.active t = false) ->
     exists rightTab,
       nth_error tabs ((i + 1) mod List.length tabs) = Some rightTab /\
       let o := run host (splitWindow (js_int (Tab.id leftTab))
                                      (js_int (Tab.id rightTab)))
                    (final_host (run host getCurrentWindowTabs h reg)) reg in
       run host quickSplit h reg
       = mkOutcome (completion o) (final_host o) (final_registry o)
                   (windows_getCurrent :: calls o)).
Proof.
  intros Htabs. split.
  - intros Hfew. apply (quickSplit_insufficient host h reg tabs Htabs Hfew).
  - intros i leftTab Hmany Hleft Hactive Hfirst.
    apply (quickSplit_delegates host h reg tabs i leftTab
             Htabs Hmany Hleft Hactive Hfirst).
Qed.

(** [[A, B(active)]] picks [(B, A)]. *)
Lemma quickSplit_selection_witness :
  exists rightTab,
    nth_error [tabA'; tabB'] ((1 + 1) mod 2) = Some rightTab /\
    let o := run scripted (splitWindow (js_int (Tab.id tabB'))
                                       (js_int (Tab.id rightTab)))
                 (final_host (run scripted getCurrentWindowTabs
                                  (script_of wrap_window false) []))
                 [] in
    run scripted quickSplit (script_of wrap_window false) []
    = mkOutcome (completion o) (final_host o) (final_registry o)
                (windows_getCurrent :: calls o).
Proof.
  apply (proj2 (quickSplit_selection scripted (script_of wrap_window false)
                  [] [tabA'; tabB'] eq_refl) 1%nat tabB').
  - simpl. lia.
  - reflexivity.
  - reflexivity.
  - intros j t Hj Ht. destruct j as [ | j]; [ | lia].
    simpl in Ht. injection Ht as <-. reflexivity.
Defined.

(** [[A(active), B, C]] picks [(A, B)]; [[A, B(active)]] picks [(B, A)]. *)
Example quickSplit_picks :
  calls (run scripted quickSplit
             (script_of (window_of 800 600 [tabA; tabB; tabC]) false) [])
    = [windows_getCurrent; windows_getCurrent;
       tabs_get (js_int 11); tabs_get (js_int 12);
       windows_create (spread (js_int 11) (Rect.mk 0 0 400 600) true);
       windows_create (spread (js_int 12) (Rect.mk 400 0 400 600) false)] /\
  calls (run scripted quickSplit (script_of wrap_window false) [])
    = [windows_getCurrent; windows_getCurrent;
       tabs_get (js_int 12); tabs_get (js_int 11);
       windows_create (spread (js_int 12) (Rect.mk 0 0 400 600) true);
       windows_create (spread (js_int 11) (Rect.mk 400 0 400 600) false);
       windows_remove 1].
Proof. split; reflexivity. Qed.

(** ** C9: createReferenceWindow and the registry *)

(** C9.  [createReferenceWindow] never throws and ends in one of two ways.
    Either it answers a failure and the registry is unchanged; or it
    answers a success, and then its calls were the tab lookup, the fetch
    and one creation, the host fulfilled the creation with a window, the
    id answered is that window's id, and the registry is the old one with
    that id added. *)
Theorem createReferenceWindow_atomic {H : Type} (host : Host H)
  (tabId : JsValue) (h : H) (reg : Registry) :
  let o := run host (createReferenceWindow tabId) h reg in
  (exists kind error,
     completion o = Normal (Failure kind error) /\
     final_registry o = reg) \/
  (exists data d rw,
     completion o = Normal (Success data) /\
     calls o = [tabs_get tabId; windows_getCurrent; windows_create d] /\
     fst (host (windows_create d)
            (snd (host windows_getCurrent (snd (host (tabs_get tabId) h)))))
       = Fulfilled (Some rw) /\
     windowId data = Window.id rw /\
     final_registry o = Set_add reg (Window.id rw) /\
     In (Window.id rw) (final_registry o)).
Proof.
  intros o.
  destruct (createReferenceWindow_outcome host tabId h reg)
    as [(kind & error & Hfail & Hreg & _)
       | (data & d & rw & Hok & _ & Hcalls & Hcreated & Hid & Hreg)].
  - left. exists kind, error. split; assumption.
  - right. exists data, d, rw. subst o. rewrite Hreg.
    repeat split; try assumption. apply Set_add_In.
Qed.

(** ** C10: getCurrentWindowTabs *)

(** C10.  On every host [getCurrentWindowTabs] completes normally with a
    list: the tabs of the fetched window, or the empty list when the fetch
    is rejected or the window carries no tab list.  The listener passes
    that list on as [{ success: true, data }]. *)
Theorem getCurrentWindowTabs_total {H : Type} (host : Host H)
  (h : H) (reg : Registry) :
  completion (run host getCurrentWindowTabs h reg)
    = Normal match fst (host windows_getCurrent h) with
             | Fulfilled currentWindow =>
                 match Window.tabs currentWindow with
                 | Some tabs => tabs
                 | None => []
                 end
             | Rejected _ => []
             end /\
  final_registry (run host getCurrentWindowTabs h reg) = reg /\
  exists tabs,
    completion (run host (onMessage action_getCurrentWindowTabs) h reg)
      = Normal (TabsData tabs) /\
    completion (run host getCurrentWindowTabs h reg) = Normal tabs.
Proof.
  unfold onMessage. rewrite run_try_catch, run_bind.
  rewrite getCurrentWindowTabs_run.
  split; [reflexivity | ]. split; [reflexivity | ].
  eexists. split; reflexivity.
Qed.

(** * Further properties of the worker *)

(** ** Operations never throw *)

Section Answers.
Context {H : Type} (host : Host H).

Lemma createReferenceWindow_never_throws tabId h reg :
  exists response,
    completion (run host (createReferenceWindow tabId) h reg)
    = Normal response.
Proof. unfold createReferenceWindow. apply run_try_catch_Return. Qed.

Lemma closeReferenceWindow_never_throws windowId h reg :
  exists response,
    completion (run host (closeReferenceWindow windowId) h reg)
    = Normal response.
Proof. unfold closeReferenceWindow. apply run_try_catch_Return. Qed.

Lemma getTabInfo_run tabId h reg :
  run host (getTabInfo tabId) h reg =
  mkOutcome
    (Normal match fst (host (tabs_get tabId) h) with
            | Fulfilled tab => tab
            | Rejected _ => None
            end)
    (snd (host (tabs_get tabId) h)) reg [tabs_get tabId].
Proof.
  unfold getTabInfo. simpl.
  destruct (host (tabs_get tabId) h) as [[tab | m] h1]; reflexivity.
Qed.

(** Wrapping the result of an operation that does not throw. *)
Lemma run_wrapped {A B : Type} (p : Async A) (wrap : A -> B)
  (g : string -> B) h reg a :
  completion (run host p h reg) = Normal a ->
  run host (try_catch (bind p (fun x => Return (wrap x)))
                      (fun e => Return (g e))) h reg
  = mkOutcome (Normal (wrap a)) (final_host (run host p h reg))
              (final_registry (run host p h reg))
              (calls (run host p h reg)).
Proof.
  intros Ha. rewrite run_try_catch, run_bind, Ha. simpl.
  rewrite app_nil_r. reflexivity.
Qed.

End Answers.

(** X1.  The listener answers every request, and its own [catch] is
    reached by [quickSplit] alone: no other request is ever answered with
    the message of an exception caught by the listener. *)
Theorem onMessage_always_answers {H : Type} (host : Host H)
  (request : Request) (h : H) (reg : Registry) :
  exists response,
    completion (run host (onMessage request) h reg) = Normal response /\
    (forall error, response = MessageError HostOperationFailed error ->
                   request = action_quickSplit).
Proof.
  destruct request as [ | l r | t | | t | w | | | ].
  - unfold onMessage.
    rewrite (run_wrapped host _ TabsData _ h reg _
               (f_equal completion (getCurrentWindowTabs_run host h reg))).
    eexists. split; [reflexivity | discriminate].
  - destruct (splitWindow_never_throws host l r h reg) as [a Ha].
    unfold onMessage. rewrite (run_wrapped host _ SplitResult _ h reg a Ha).
    eexists. split; [reflexivity | discriminate].
  - unfold onMessage.
    rewrite (run_wrapped host _ TabInfoData _ h reg _
               (f_equal completion (getTabInfo_run host t h reg))).
    eexists. split; [reflexivity | discriminate].
  - destruct (run_try_catch_Return host
                (bind quickSplit (fun result => Return (SplitResult result)))
                (MessageError HostOperationFailed) h reg) as [a Ha].
    exists a. split; [exact Ha | reflexivity].
  - destruct (createReferenceWindow_never_throws host t h reg) as [a Ha].
    unfold onMessage.
    rewrite (run_wrapped host _ ReferenceResult _ h reg a Ha).
    eexists. split; [reflexivity | discriminate].
  - destruct (closeReferenceWindow_never_throws host w h reg) as [a Ha].
    unfold onMessage. rewrite (run_wrapped host _ CloseResult _ h reg a Ha).
    eexists. split; [reflexivity | discriminate].
  - destruct (closeAllReferenceWindows_run host h reg) as (h' & Hrun).
    unfold onMessage.
    rewrite (run_wrapped host _ CloseAllResult _ h reg _
               (f_equal completion Hrun)).
    eexists. split; [reflexivity | discriminate].
  - eexists. split; [reflexivity | discriminate].
  - eexists. split; [reflexivity | discriminate].
Qed.

(** ** quickSplit without an active tab *)

Lemma findIndex_none {A : Type} (p : A -> bool) (array : list A) :
  (forall x, In x array -> p x = false) -> findIndex p array = -1.
Proof.
  induction array as [ | a rest IH]; intros Hnone; simpl.
  - reflexivity.
  - rewrite (Hnone a) by (left; reflexivity).
    rewrite IH by (intros x Hx; apply Hnone; right; exact Hx).
    reflexivity.
Qed.

(** X2.  When the window has at least 2 tabs and none of them is active,
    [findIndex] is [-1], reading [leftTab.id] throws, and the listener
    answers [{ success: false, error }] with the message of the
    [TypeError]; the fetch of the tabs is the only host call, no split is
    attempted. *)
Theorem quickSplit_without_active_tab {H : Type} (host : Host H)
  (h : H) (reg : Registry) (tabs : list Tab.t) :
  completion (run host getCurrentWindowTabs h reg) = Normal tabs ->
  (2 <= List.length tabs)%nat ->
  (forall t, In t tabs -> Tab.active t = false) ->
  run host (onMessage action_quickSplit) h reg
  = mkOutcome (Normal (MessageError HostOperationFailed TypeError_id))
              (final_host (run host getCurrentWindowTabs h reg)) reg
              [windows_getCurrent].
Proof.
  intros Htabs Hmany Hidle.
  apply Nat.leb_le in Hmany.
  pose proof (findIndex_none Tab.active tabs Hidle) as Hindex.
  unfold onMessage, quickSplit. rewrite run_try_catch, !run_bind.
  rewrite getCurrentWindowTabs_run in Htabs |- *.
  destruct (host windows_getCurrent h) as [[cw | m] h1];
    step; cbn [completion fst] in Htabs; injection Htabs as Etabs;
    rewrite Etabs, Hmany, Hindex; reflexivity.
Qed.

Lemma quickSplit_without_active_tab_witness :
  run scripted (onMessage action_quickSplit) (script_of idle_window false) []
  = mkOutcome (Normal (MessageError HostOperationFailed TypeError_id))
              (final_host (run scripted getCurrentWindowTabs
                               (script_of idle_window false) []))
              [] [windows_getCurrent].
Proof.
  apply (quickSplit_without_active_tab scripted (script_of idle_window false)
           [] [tabA'; tabB] eq_refl).
  - simpl. lia.
  - intros t [<- | [<- | []]]; reflexivity.
Defined.

(** ** splitWindow: what a failure leaves behind *)

(** X3.  A [splitWindow] that fails with anything but
    [HostOperationFailed] (invalid ids, a window too small, a tab not
    found) has not asked the host to create or remove any window, and the
    registry is as it was. *)
Theorem splitWindow_early_failure_is_clean {H : Type} (host : Host H)
  (l r : JsValue) (h : H) (reg : Registry)
  (kind : ErrorKind) (error : string) :
  completion (run host (splitWindow l r) h reg)
    = Normal (Failure kind error) ->
  kind <> HostOperationFailed ->
  filter is_create (calls (run host (splitWindow l r) h reg)) = [] /\
  filter is_remove (calls (run host (splitWindow l r) h reg)) = [] /\
  final_registry (run host (splitWindow l r) h reg) = reg.
Proof.
  unfold splitWindow.
  settle host; intros Hfail Hkind;
    first [ discriminate Hfail
          | injection Hfail as <- _; congruence
          | repeat split ].
Qed.

Lemma splitWindow_early_failure_is_clean_witness :
  filter is_create
    (calls (run scripted (splitWindow (js_int 11) (js_int 99))
                (script_of large_window false) [])) = [] /\
  filter is_remove
    (calls (run scripted (splitWindow (js_int 11) (js_int 99))
                (script_of large_window false) [])) = [] /\
  final_registry (run scripted (splitWindow (js_int 11) (js_int 99))
                      (script_of large_window false) []) = [].
Proof.
  apply (splitWindow_early_failure_is_clean scripted (js_int 11) (js_int 99)
           (script_of large_window false) [] TabNotFound
           "Invalid tab IDs or tabs not accessible").
  - reflexivity.
  - discriminate.
Defined.

(** X4.  The only window [splitWindow] ever asks the host to remove is the
    window it fetched, and only as its last call, after both creations:
    whenever a removal appears among its calls, the calls are the fetch,
    the two lookups, the two creations and that removal.  In particular a
    window it created is never removed again when a later step fails. *)
Theorem splitWindow_removes_only_the_origin {H : Type} (host : Host H)
  (l r : JsValue) (h : H) (reg : Registry) (w : Z) :
  In (windows_remove w) (calls (run host (splitWindow l r) h reg)) ->
  exists cw,
    fst (host windows_getCurrent h) = Fulfilled cw /\
    w = Window.id cw /\
    (List.length (tabs_or_empty cw) <= 2)%nat /\
    calls (run host (splitWindow l r) h reg)
      = [windows_getCurrent; tabs_get l; tabs_get r;
         windows_create (spread l (leftWindowBounds cw) true);
         windows_create (spread r (rightWindowBounds cw) false);
         windows_remove (Window.id cw)].
Proof.
  unfold splitWindow.
  destruct (js_not l || js_not r || negb (typeof l =? "number")%string
            || negb (typeof r =? "number")%string); [contradiction | ].
  destruct (strict_equal l r); [contradiction | ].
  simpl.
  destruct (host windows_getCurrent h) as [[cw | m] h1] eqn:E0; simpl;
    [ | intros [Hd | []]; discriminate].
  destruct ((Window.width cw <? 400) || (Window.height cw <? 300));
    [intros [Hd | []]; discriminate | ].
  intros Hin. exists cw. split; [reflexivity | ].
  revert Hin.
  settle host; intros Hin; simpl in Hin;
    repeat match goal with
      | Hor : _ \/ _ |- _ => destruct Hor as [Hor | Hor]
      | Hf : False |- _ => contradiction
      | Heq : _ = windows_remove w |- _ =>
          first [discriminate Heq | injection Heq as <-]
      end;
    match goal with
    | Hlen : (_ <=? 2)%nat = true |- _ => apply Nat.leb_le in Hlen
    end;
    repeat split; assumption.
Qed.

Lemma splitWindow_removes_only_the_origin_witness :
  exists cw,
    fst (scripted windows_getCurrent (script_of large_window false))
      = Fulfilled cw /\
    1 = Window.id cw /\
    (List.length (tabs_or_empty cw) <= 2)%nat /\
    calls (run scripted (splitWindow (js_int 11) (js_int 12))
               (script_of large_window false) [])
      = [windows_getCurrent; tabs_get (js_int 11); tabs_get (js_int 12);
         windows_create (spread (js_int 11) (leftWindowBounds cw) true);
         windows_create (spread (js_int 12) (rightWindowBounds cw) false);
         windows_remove (Window.id cw)].
Proof.
  apply (splitWindow_removes_only_the_origin scripted (js_int 11) (js_int 12)
           (script_of large_window false) [] 1).
  simpl. do 5 right. left. reflexivity.
Defined.

(** X5.  On success [splitWindow] returns the ids of the two windows the
    host created, the left one first; both lookups had resolved to tabs
    before anything was created. *)
Theorem splitWindow_returns_created_ids {H : Type} (host : Host H)
  (l r : JsValue) (h : H) (reg : Registry) (data : SplitData) :
  completion (run host (splitWindow l r) h reg) = Normal (Success data) ->
  exists cw leftTab rightTab created_left created_right,
    let h1 := snd (host windows_getCurrent h) in
    let h2 := snd (host (tabs_get l) h1) in
    let h3 := snd (host (tabs_get r) h2) in
    let create_left :=
      windows_create (spread l (leftWindowBounds cw) true) in
    let create_right :=
      windows_create (spread r (rightWindowBounds cw) false) in
    fst (host windows_getCurrent h) = Fulfilled cw /\
    fst (host (tabs_get l) h1) = Fulfilled (Some leftTab) /\
    fst (host (tabs_get r) h2) = Fulfilled (Some rightTab) /\
    fst (host create_left h3) = Fulfilled (Some created_left) /\
    fst (host create_right (snd (host create_left h3)))
      = Fulfilled (Some created_right) /\
    data = {| leftWindow := Window.id created_left;
              rightWindow := Window.id created_right |}.
Proof.
  unfold splitWindow.
  destruct (js_not l || js_not r || negb (typeof l =? "number")%string
            || negb (typeof r =? "number")%string); [discriminate | ].
  destruct (strict_equal l r); [discriminate | ].
  simpl.
  destruct (host windows_getCurrent h) as [[cw | m] h1] eqn:E0; simpl;
    [ | discriminate].
  destruct ((Window.width cw <? 400) || (Window.height cw <? 300));
    [discriminate | ].
  simpl.
  destruct (host (tabs_get l) h1) as [[[leftTab | ] | m] h2] eqn:E1; simpl.
  2: destruct (host (tabs_get r) h2) as [[[rightTab | ] | m'] h3];
    discriminate.
  2: discriminate.
  destruct (host (tabs_get r) h2) as [[[rightTab | ] | m] h3] eqn:E2; simpl;
    [ | discriminate | discriminate].
  destruct (host (windows_create (spread l (leftWindowBounds cw) true)) h3)
    as [[[lw | ] | m] h4] eqn:E3; simpl.
  3: discriminate.
  2: { destruct (host (windows_create
                         (spread r (rightWindowBounds cw) false)) h4)
         as [[[rw | ] | m] h5]; discriminate. }
  destruct (host (windows_create (spread r (rightWindowBounds cw) false)) h4)
    as [[[rw | ] | m] h5] eqn:E4; simpl; [ | discriminate | discriminate].
  intros Hok.
  exists cw, leftTab, rightTab, lw, rw. simpl.
  rewrite E3. simpl. rewrite E4. simpl.
  repeat split.
  revert Hok. settle host; simpl; intros Hok; congruence.
Qed.

Lemma splitWindow_returns_created_ids_witness :
  exists cw leftTab rightTab created_left created_right,
    let s := script_of large_window false in
    let h1 := snd (scripted windows_getCurrent s) in
    let h2 := snd (scripted (tabs_get (js_int 11)) h1) in
    let h3 := snd (scripted (tabs_get (js_int 12)) h2) in
    let create_left :=
      windows_create (spread (js_int 11) (leftWindowBounds cw) true) in
    let create_right :=
      windows_create (spread (js_int 12) (rightWindowBounds cw) false) in
    fst (scripted windows_getCurrent s) = Fulfilled cw /\
    fst (scripted (tabs_get (js_int 11)) h1) = Fulfilled (Some leftTab) /\
    fst (scripted (tabs_get (js_int 12)) h2) = Fulfilled (Some rightTab) /\
    fst (scripted create_left h3) = Fulfilled (Some created_left) /\
    fst (scripted create_right (snd (scripted create_left h3)))
      = Fulfilled (Some created_right) /\
    {| leftWindow := 100; rightWindow := 101 |}
    = {| leftWindow := Window.id created_left;
         rightWindow := Window.id created_right |}.
Proof.
  apply (splitWindow_returns_created_ids scripted (js_int 11) (js_int 12)
           (script_of large_window false) []
           {| leftWindow := 100; rightWindow := 101 |}).
  reflexivity.
Defined.

(** ** Requests that leave the registry alone *)

(** X6.  Only [createReferenceWindow], [closeReferenceWindow] and
    [closeAllReferenceWindows] can change the set of tracked windows:
    every other request, whatever the host answers, leaves the registry
    exactly as it was. *)
Theorem other_requests_keep_registry {H : Type} (host : Host H)
  (request : Request) (h : H) (reg : Registry) :
  touches_registry request = false ->
  final_registry (run host (onMessage request) h reg) = reg.
Proof.
  intros Hquiet. unfold onMessage.
  rewrite run_try_catch_Return_registry.
  destruct request as [ | l r | t | | t | w | | | ];
    try discriminate Hquiet; try rewrite run_bind_Return_registry.
  - rewrite getCurrentWindowTabs_run. reflexivity.
  - apply splitWindow_registry.
  - apply getTabInfo_registry.
  - apply quickSplit_registry.
  - reflexivity.
  - reflexivity.
Qed.

Lemma other_requests_keep_registry_witness :
  final_registry (run scripted (onMessage action_quickSplit)
                      (script_of large_window false) full_registry)
  = full_registry.
Proof.
  apply (other_requests_keep_registry scripted action_quickSplit
           (script_of large_window false) full_registry).
  reflexivity.
Defined.

(** ** getTabInfo *)

(** X7.  [getTabInfo] passes any [tabId] to the host unchecked, and the
    listener always answers [{ success: true, data }]: the tab when the
    host resolves the lookup, [null] when the host rejects it.  A failed
    lookup is never reported as a failure. *)
Theorem getTabInfo_always_succeeds {H : Type} (host : Host H)
  (tabId : JsValue) (h : H) (reg : Registry) :
  run host (onMessage (action_getTabInfo tabId)) h reg
  = mkOutcome
      (Normal (TabInfoData match fst (host (tabs_get tabId) h) with
                           | Fulfilled tab => tab
                           | Rejected _ => None
                           end))
      (snd (host (tabs_get tabId) h)) reg [tabs_get tabId].
Proof.
  unfold onMessage.
  rewrite (run_wrapped host _ TabInfoData _ h reg _
             (f_equal completion (getTabInfo_run host tabId h reg))).
  rewrite getTabInfo_run. reflexivity.
Qed.

(** ** createReferenceWindow: which failure, and the geometry *)

Lemma referenceWidth_fifth (currentWindow : Window.t) :
  referenceWidth currentWindow = Window.width currentWindow / 5.
Proof.
  unfold referenceWidth, Qfloor. simpl.
  change 10 with (5 * 2). apply Z.div_mul_cancel_r; discriminate.
Qed.

(** X8.  [createReferenceWindow] answers [ReferenceLimitReached] exactly
    when the tab id passes the validation and 3 or more windows are
    tracked. *)
Theorem createReferenceWindow_limit_iff {H : Type} (host : Host H)
  (tab : JsValue) (h : H) (reg : Registry) :
  fails_with ReferenceLimitReached
    (run host (createReferenceWindow tab) h reg) <->
  nonzero_number tab /\ (3 <= Set_size reg)%nat.
Proof.
  split.
  - unfold fails_with, createReferenceWindow.
    destruct (js_not tab || negb (typeof tab =? "number")%string) eqn:Ev.
    { intros [e He]. discriminate. }
    apply validation_passes in Ev. step.
    destruct (3 <=? Set_size reg)%nat eqn:Esize.
    { intros _. apply Nat.leb_le in Esize. split; assumption. }
    settle host; simpl; intros [e He]; discriminate.
  - intros [Hvalid Hfull].
    rewrite (createReferenceWindow_limit host tab h reg Hvalid Hfull).
    eexists. reflexivity.
Qed.

(** X9.  With a valid tab id and fewer than 3 windows tracked,
    [createReferenceWindow] answers [TabNotFound] exactly when the host
    rejects the lookup of the tab or resolves it to nothing; the lookup is
    then the only host call: the current window is not even fetched. *)
Theorem createReferenceWindow_tab_not_found {H : Type} (host : Host H)
  (tab : JsValue) (h : H) (reg : Registry) :
  nonzero_number tab -> (Set_size reg < 3)%nat ->
  let o := run host (createReferenceWindow tab) h reg in
  (fails_with TabNotFound o <->
   fst (host (tabs_get tab) h) = Fulfilled None \/
   exists message, fst (host (tabs_get tab) h) = Rejected message) /\
  (fails_with TabNotFound o ->
   calls o = [tabs_get tab] /\ final_registry o = reg).
Proof.
  intros Hvalid Hroom. apply validation_passes in Hvalid.
  apply Nat.leb_gt in Hroom.
  unfold fails_with, createReferenceWindow. rewrite Hvalid. step.
  rewrite Hroom. simpl.
  destruct (host (tabs_get tab) h) as [[[t | ] | m] h1] eqn:E1; simpl.
  - split.
    + split.
      * settle host; simpl; intros [e He]; discriminate.
      * intros [Hnone | [m Hm]]; discriminate.
    + settle host; simpl; intros [e He]; discriminate.
  - split; [ | auto]. split; [auto | intros _; eexists; reflexivity].
  - split; [ | auto].
    split; [intros _; right; eexists; reflexivity
           | intros _; eexists; reflexivity].
Qed.

Lemma createReferenceWindow_tab_not_found_witness :
  calls (run scripted (createReferenceWindow (js_int 99))
             (script_of large_window false) [201])
    = [tabs_get (js_int 99)] /\
  final_registry (run scripted (createReferenceWindow (js_int 99))
                      (script_of large_window false) [201])
    = [201].
Proof.
  apply (proj2 (createReferenceWindow_tab_not_found scripted (js_int 99)
                  (script_of large_window false) [201]
                  ltac:(simpl; discriminate) ltac:(simpl; lia))).
  eexists. reflexivity.
Defined.

(** X10.  A reference window is requested immediately to the right of the
    current window ([left + width], same [top]), as high as the current
    window and a fifth of its width, rounded down (for the integer
    widths the host supplies, [Math.floor(width * 0.2)] is
    [floor(width / 5)]); unfocused, of type ['normal'], holding the given
    tab.  The answer repeats the tab id and these dimensions. *)
Theorem createReferenceWindow_geometry {H : Type} (host : Host H)
  (tab : JsValue) (h : H) (reg : Registry) (data : ReferenceData) :
  completion (run host (createReferenceWindow tab) h reg)
    = Normal (Success data) ->
  exists cw,
    fst (host windows_getCurrent (snd (host (tabs_get tab) h)))
      = Fulfilled cw /\
    calls (run host (createReferenceWindow tab) h reg)
      = [tabs_get tab; windows_getCurrent;
         windows_create
           {| CreateData.tabId := tab;
              CreateData.left := Window.left cw + Window.width cw;
              CreateData.top := Window.top cw;
              CreateData.width := Window.width cw / 5;
              CreateData.height := Window.height cw;
              CreateData.focused := false;
              CreateData.type := Some "normal" |}] /\
    tabId data = tab /\
    dimensions data = (Window.width cw / 5, Window.height cw) /\
    5 * (Window.width cw / 5) <= Window.width cw
      < 5 * (Window.width cw / 5) + 5.
Proof.
  unfold createReferenceWindow.
  destruct (js_not tab || negb (typeof tab =? "number")%string);
    [discriminate | ].
  step. destruct (3 <=? Set_size reg)%nat; [discriminate | ].
  simpl.
  destruct (host (tabs_get tab) h) as [[[t | ] | m] h1]; simpl;
    [ | discriminate | discriminate].
  destruct (host windows_getCurrent h1) as [[cw | m] h2]; simpl;
    [ | discriminate].
  rewrite referenceWidth_fifth.
  match goal with
  | |- context [host (windows_create ?d) h2] =>
      destruct (host (windows_create d) h2) as [[[rw | ] | m] h3]
  end; simpl; [ | discriminate | discriminate].
  intros Hok. injection Hok as <-. exists cw.
  pose proof (Z.mod_pos_bound (Window.width cw) 5 eq_refl) as Hmod.
  pose proof (Z.div_mod (Window.width cw) 5 ltac:(discriminate)) as Hdiv.
  repeat split; try reflexivity.
  - change (5 * (Window.width cw / 5) <= Window.width cw). lia.
  - change (Window.width cw < 5 * (Window.width cw / 5) + 5). lia.
Qed.

Lemma createReferenceWindow_geometry_witness :
  exists cw,
    fst (scripted windows_getCurrent
           (snd (scripted (tabs_get (js_int 11))
                   (script_of odd_window false))))
      = Fulfilled cw /\
    calls (run scripted (createReferenceWindow (js_int 11))
               (script_of odd_window false) [])
      = [tabs_get (js_int 11); windows_getCurrent;
         windows_create
           {| CreateData.tabId := js_int 11;
              CreateData.left := Window.left cw + Window.width cw;
              CreateData.top := Window.top cw;
              CreateData.width := Window.width cw / 5;
              CreateData.height := Window.height cw;
              CreateData.focused := false;
              CreateData.type := Some "normal" |}] /\
    js_int 11 = js_int 11 /\
    (80, 300) = (Window.width cw / 5, Window.height cw) /\
    5 * (Window.width cw / 5) <= Window.width cw
      < 5 * (Window.width cw / 5) + 5.
Proof.
  apply (createReferenceWindow_geometry scripted (js_int 11)
           (script_of odd_window false) []
           {| windowId := 100; tabId := js_int 11;
              dimensions := (80, 300) |}).
  reflexivity.
Defined.

(** ** The registry through a window's life *)

Lemma Set_has_false (s : Registry) (x : Z) :
  Set_has s x = false <-> ~ In x s.
Proof.
  rewrite <- Set_has_In. destruct (Set_has s x); split; congruence.
Qed.

Lemma Set_delete_absent (s : Registry) (x : Z) :
  ~ In x s -> Set_delete s x = s.
Proof.
  unfold Set_delete. induction s as [ | y s IH]; intros Hout; simpl.
  - reflexivity.
  - destruct (Z.eqb_spec x y) as [-> | Hne].
    + exfalso. apply Hout. left. reflexivity.
    + simpl. rewrite IH; [reflexivity | ].
      intros Hin. apply Hout. right. exact Hin.
Qed.

Lemma Set_add_fresh (s : Registry) (x : Z) :
  ~ In x s -> Set_add s x = s ++ [x].
Proof.
  intros Hout. unfold Set_add.
  rewrite (proj2 (Set_has_false s x) Hout). reflexivity.
Qed.

Lemma Set_delete_add (s : Registry) (x : Z) :
  ~ In x s -> Set_delete (Set_add s x) x = s.
Proof.
  intros Hout. rewrite (Set_add_fresh s x Hout).
  unfold Set_delete. rewrite filter_app. simpl.
  rewrite Z.eqb_refl. simpl. rewrite app_nil_r.
  apply (Set_delete_absent s x Hout).
Qed.

Lemma Set_delete_In (s : Registry) (x y : Z) :
  In y (Set_delete s x) <-> In y s /\ y <> x.
Proof.
  unfold Set_delete. rewrite filter_In.
  destruct (Z.eqb_spec x y) as [-> | Hne]; simpl; intuition congruence.
Qed.

Lemma onRemoved_run {H : Type} (host : Host H) (w : Z) h reg :
  run host (onRemoved w) h reg
  = mkOutcome (Normal tt) h (Set_delete reg w) [].
Proof.
  unfold onRemoved. step. destruct (Set_has reg w) eqn:E; step.
  - reflexivity.
  - apply Set_has_false in E. rewrite (Set_delete_absent reg w E).
    reflexivity.
Qed.

(** X11.  Opening a reference window and closing it again restores the
    registry: if [createReferenceWindow] succeeds with a window id that
    was not tracked before, and the host then fulfils the removal, then
    [closeReferenceWindow] on the returned id succeeds and the registry
    is what it was before the window was opened. *)
Theorem create_then_close_restores_registry {H : Type} (host : Host H)
  (tab : JsValue) (h : H) (reg : Registry) (data : ReferenceData) :
  let o1 := run host (createReferenceWindow tab) h reg in
  let o2 := run host (closeReferenceWindow (windowId data))
                (final_host o1) (final_registry o1) in
  completion o1 = Normal (Success data) ->
  ~ In (windowId data) reg ->
  fst (host (windows_remove (windowId data)) (final_host o1)) = Fulfilled tt ->
  completion o2 = Normal (Success (windowId data)) /\
  calls o2 = [windows_remove (windowId data)] /\
  final_registry o2 = reg.
Proof.
  cbv zeta. intros Hok Hfresh Hremoved.
  destruct (createReferenceWindow_outcome host tab h reg)
    as [(kind & error & Hfail & _)
       | (data' & d & rw & Hok' & _ & _ & _ & Hid & Hreg)];
    [congruence | ].
  assert (data' = data) by congruence. subst data'.
  rewrite <- Hid in Hreg. rewrite Hreg.
  rewrite closeReferenceWindow_tracked by apply Set_add_In.
  rewrite Hremoved. simpl.
  rewrite (Set_delete_add reg (windowId data) Hfresh). auto.
Qed.

Lemma create_then_close_restores_registry_witness :
  completion (run scripted (closeReferenceWindow 100)
                (final_host (run scripted (createReferenceWindow (js_int 11))
                                 (script_of large_window false) [201]))
                (final_registry
                   (run scripted (createReferenceWindow (js_int 11))
                        (script_of large_window false) [201])))
    = Normal (Success 100) /\
  calls (run scripted (closeReferenceWindow 100)
                (final_host (run scripted (createReferenceWindow (js_int 11))
                                 (script_of large_window false) [201]))
                (final_registry
                   (run scripted (createReferenceWindow (js_int 11))
                        (script_of large_window false) [201])))
    = [windows_remove 100] /\
  final_registry
    (run scripted (closeReferenceWindow 100)
       (final_host (run scripted (createReferenceWindow (js_int 11))
                        (script_of large_window false) [201]))
       (final_registry
          (run scripted (createReferenceWindow (js_int 11))
               (script_of large_window false) [201])))
    = [201].
Proof.
  apply (create_then_close_restores_registry scripted (js_int 11)
           (script_of large_window false) [201]
           {| windowId := 100; tabId := js_int 11;
              dimensions := (160, 600) |}).
  - reflexivity.
  - simpl. intros [E | []]. discriminate.
  - reflexivity.
Defined.

(** X12.  After a successful [createReferenceWindow], [getReferenceWindows]
    lists the returned window id, with [count] equal to the number of
    windows listed; if the id was not tracked before, the list is the old
    one followed by the new id and [count] is one higher.  Listing calls
    nothing on the host. *)
Theorem created_window_is_listed {H : Type} (host : Host H)
  (tab : JsValue) (h : H) (reg : Registry) (data : ReferenceData) :
  let o1 := run host (createReferenceWindow tab) h reg in
  let o2 := run host (onMessage action_getReferenceWindows)
                (final_host o1) (final_registry o1) in
  completion o1 = Normal (Success data) ->
  exists windows,
    completion o2
      = Normal (ReferenceWindowsList windows (List.length windows)) /\
    calls o2 = [] /\
    In (windowId data) windows /\
    (~ In (windowId data) reg -> windows = reg ++ [windowId data]).
Proof.
  cbv zeta. intros Hok.
  destruct (createReferenceWindow_outcome host tab h reg)
    as [(kind & error & Hfail & _)
       | (data' & d & rw & Hok' & _ & _ & _ & Hid & Hreg)];
    [congruence | ].
  assert (data' = data) by congruence. subst data'.
  rewrite <- Hid in Hreg.
  exists (final_registry (run host (createReferenceWindow tab) h reg)).
  split; [reflexivity | ]. split; [reflexivity | ].
  rewrite Hreg. split; [apply Set_add_In | apply Set_add_fresh].
Qed.

Lemma created_window_is_listed_witness :
  exists windows,
    completion (run scripted (onMessage action_getReferenceWindows)
                  (final_host (run scripted (createReferenceWindow (js_int 11))
                                   (script_of large_window false) [201]))
                  (final_registry
                     (run scripted (createReferenceWindow (js_int 11))
                          (script_of large_window false) [201])))
      = Normal (ReferenceWindowsList windows (List.length windows)) /\
    calls (run scripted (onMessage action_getReferenceWindows)
                  (final_host (run scripted (createReferenceWindow (js_int 11))
                                   (script_of large_window false) [201]))
                  (final_registry
                     (run scripted (createReferenceWindow (js_int 11))
                          (script_of large_window false) [201])))
      = [] /\
    In 100 windows /\
    (~ In 100 [201] -> windows = [201] ++ [100]).
Proof.
  apply (created_window_is_listed scripted (js_int 11)
           (script_of large_window false) [201]
           {| windowId := 100; tabId := js_int 11;
              dimensions := (160, 600) |}).
  reflexivity.
Defined.

(** X13.  When the host reports that a window was removed, the listener
    drops exactly that id from the registry, keeps every other entry in
    order, and calls nothing on the host; an untracked id changes
    nothing.  A later [closeReferenceWindow] for that id answers
    [NotTracked] without asking the host to remove the window again. *)
Theorem onRemoved_forgets_the_window {H : Type} (host : Host H)
  (w : Z) (h : H) (reg : Registry) :
  let o := run host (onRemoved w) h reg in
  calls o = [] /\
  final_host o = h /\
  final_registry o = filter (fun y => negb (y =? w)) reg /\
  (forall y, In y (final_registry o) <-> In y reg /\ y <> w) /\
  (~ In w reg -> final_registry o = reg) /\
  (forall h',
     run host (closeReferenceWindow w) h' (final_registry o)
     = mkOutcome (Normal (Failure NotTracked
                            "Window is not a tracked reference window"))
                 h' (final_registry o) []).
Proof.
  intros o. subst o. rewrite onRemoved_run. simpl.
  split; [reflexivity | ]. split; [reflexivity | ].
  split.
  { unfold Set_delete. apply filter_ext. intros y.
    rewrite Z.eqb_sym. reflexivity. }
  split; [intros y; apply Set_delete_In | ].
  split; [apply Set_delete_absent | ].
  intros h'. apply closeReferenceWindow_untracked. apply Set_delete_not_In.
Qed.

Lemma onRemoved_forgets_the_window_witness :
  final_registry (run scripted (onRemoved 999)
                      (script_of large_window false) full_registry)
  = full_registry.
Proof.
  apply (proj1 (proj2 (proj2 (proj2 (proj2
           (onRemoved_forgets_the_window scripted 999
              (script_of large_window false) full_registry)))))).
  simpl. intros [E | [E | [E | []]]]; discriminate.
Defined.

(** X14.  A reference window can be closed once: after a successful
    [closeReferenceWindow] the same id is answered [NotTracked], on any
    host state, and no second removal is requested. *)
Theorem closeReferenceWindow_twice {H : Type} (host : Host H)
  (w : Z) (h h' : H) (reg : Registry) (closed : Z) :
  let o := run host (closeReferenceWindow w) h reg in
  completion o = Normal (Success closed) ->
  closed = w /\
  run host (closeReferenceWindow w) h' (final_registry o)
  = mkOutcome (Normal (Failure NotTracked
                         "Window is not a tracked reference window"))
              h' (final_registry o) [].
Proof.
  intros o Hok. subst o.
  destruct (in_dec Z.eq_dec w reg) as [Hin | Hout].
  - rewrite (closeReferenceWindow_tracked host w h reg Hin) in Hok |- *.
    destruct (fst (host (windows_remove w) h)); simpl in *;
      [ | discriminate].
    split; [congruence | ].
    apply closeReferenceWindow_untracked. apply Set_delete_not_In.
  - rewrite (closeReferenceWindow_untracked host w h reg Hout) in Hok.
    discriminate.
Qed.

Lemma closeReferenceWindow_twice_witness :
  202 = 202 /\
  run scripted (closeReferenceWindow 202) (script_of large_window false)
      (final_registry (run scripted (closeReferenceWindow 202)
                           (script_of large_window false) full_registry))
  = mkOutcome (Normal (Failure NotTracked
                         "Window is not a tracked reference window"))
              (script_of large_window false)
              (final_registry (run scripted (closeReferenceWindow 202)
                                   (script_of large_window false)
                                   full_registry)) [].
Proof.
  apply (closeReferenceWindow_twice scripted 202
           (script_of large_window false) (script_of large_window false)
           full_registry 202).
  reflexivity.
Defined.

(** X15.  [closeAllReferenceWindows] makes room again: whatever the host
    answered to the removals, a second [closeAllReferenceWindows] calls
    nothing and reports [closedCount] 0, and the next
    [createReferenceWindow] is not refused with [ReferenceLimitReached]. *)
Theorem closeAllReferenceWindows_makes_room {H : Type} (host : Host H)
  (h : H) (reg : Registry) :
  let o := run host closeAllReferenceWindows h reg in
  run host closeAllReferenceWindows (final_host o) (final_registry o)
    = mkOutcome (Normal (Success 0%nat)) (final_host o) [] [] /\
  (forall tab h',
     ~ fails_with ReferenceLimitReached
         (run host (createReferenceWindow tab) h' (final_registry o))).
Proof.
  intros o. subst o.
  destruct (closeAllReferenceWindows_run host h reg) as (h1 & ->). simpl.
  split; [reflexivity | ].
  intros tab h' [error Herror].
  unfold createReferenceWindow in Herror.
  destruct (js_not tab || negb (typeof tab =? "number")%string);
    [discriminate | ].
  revert Herror. settle host; simpl; intros Herror; discriminate.
Qed.

(** ** quickSplit and the validation of splitWindow *)

Lemma first_satisfying {A : Type} (p : A -> bool) (array : list A) :
  (exists x, In x array /\ p x = true) ->
  exists i x,
    nth_error array i = Some x /\ p x = true /\
    (forall j y, (j < i)%nat -> nth_error array j = Some y -> p y = false).
Proof.
  induction array as [ | a rest IH]; intros (x & Hin & Hp).
  - contradiction.
  - destruct (p a) eqn:Ea.
    + exists 0%nat, a. split; [reflexivity | ]. split; [exact Ea | ].
      intros j y Hj. lia.
    + destruct Hin as [-> | Hin]; [congruence | ].
      destruct (IH (ex_intro _ x (conj Hin Hp))) as (i & z & Hi & Hz & Hbefore).
      exists (S i), z. split; [exact Hi | ]. split; [exact Hz | ].
      intros j y Hj Hy. destruct j as [ | j]; simpl in Hy.
      * congruence.
      * apply (Hbefore j y); [lia | exact Hy].
Qed.

Lemma next_index_differs (i n : nat) :
  (2 <= n)%nat -> (i < n)%nat -> ((i + 1) mod n)%nat <> i.
Proof.
  intros Hn Hi.
  destruct (Nat.eq_dec (i + 1) n) as [Hlast | Hmid].
  - rewrite Hlast, Nat.Div0.mod_same. lia.
  - rewrite Nat.mod_small by lia. lia.
Qed.

Lemma distinct_ids (tabs : list Tab.t) (i j : nat) (a b : Tab.t) :
  NoDup (map Tab.id tabs) ->
  nth_error tabs i = Some a -> nth_error tabs j = Some b -> i <> j ->
  Tab.id a <> Tab.id b.
Proof.
  intros Hnodup Hi Hj Hij Heq. apply Hij.
  apply (proj1 (NoDup_nth_error (map Tab.id tabs)) Hnodup).
  - rewrite length_map. apply nth_error_Some. congruence.
  - rewrite !nth_error_map, Hi, Hj. simpl. congruence.
Qed.

Lemma splitWindow_early_kinds {H : Type} (host : Host H)
  (l r : JsValue) h reg (error : string) :
  completion (run host (splitWindow l r) h reg)
    <> Normal (Failure InsufficientTabs error).
Proof.
  unfold splitWindow. settle host; simpl; discriminate.
Qed.

(** X16.  When the window has at least 2 tabs, one of them active, and the
    tab ids are distinct and non-zero, the pair [quickSplit] picks always
    passes the validation of [splitWindow]: the answer is neither
    [InsufficientTabs] nor [InvalidInput]. *)
Theorem quickSplit_pair_is_valid {H : Type} (host : Host H)
  (h : H) (reg : Registry) (tabs : list Tab.t) :
  completion (run host getCurrentWindowTabs h reg) = Normal tabs ->
  (2 <= List.length tabs)%nat ->
  NoDup (map Tab.id tabs) ->
  (forall t, In t tabs -> Tab.id t <> 0) ->
  (exists t, In t tabs /\ Tab.active t = true) ->
  ~ fails_with InvalidInput (run host quickSplit h reg) /\
  ~ fails_with InsufficientTabs (run host quickSplit h reg).
Proof.
  intros Htabs Hmany Hnodup Hnonzero Hactive.
  destruct (first_satisfying Tab.active tabs Hactive)
    as (i & leftTab & Hleft & Hflag & Hfirst).
  destruct (quickSplit_delegates host h reg tabs i leftTab
              Htabs Hmany Hleft Hflag Hfirst)
    as (rightTab & Hright & Hrun).
  cbv zeta in Hrun. rewrite Hrun. unfold fails_with. simpl.
  assert (Hi : (i < List.length tabs)%nat).
  { apply nth_error_Some. congruence. }
  assert (Hne : strict_equal (js_int (Tab.id leftTab))
                             (js_int (Tab.id rightTab)) = false).
  { rewrite strict_equal_js_int. apply Z.eqb_neq.
    apply (distinct_ids tabs i ((i + 1) mod List.length tabs)%nat);
      auto.
    intros E. symmetry in E. revert E. apply next_index_differs; assumption. }
  assert (Hl : nonzero_number (js_int (Tab.id leftTab))).
  { apply nonzero_number_js_int. apply Hnonzero.
    apply (nth_error_In tabs i). exact Hleft. }
  assert (Hr : nonzero_number (js_int (Tab.id rightTab))).
  { apply nonzero_number_js_int. apply Hnonzero.
    apply (nth_error_In tabs _ Hright). }
  destruct (splitWindow_passed host _ _
              (final_host (run host getCurrentWindowTabs h reg)) reg
              Hl Hr Hne) as (Hvalid & _).
  split; [exact Hvalid | ].
  intros [error Herror].
  pose proof (splitWindow_early_kinds host (js_int (Tab.id leftTab))
                (js_int (Tab.id rightTab))
                (final_host (run host getCurrentWindowTabs h reg)) reg) as Hk.
  apply (Hk error). exact Herror.
Qed.

Lemma quickSplit_pair_is_valid_witness :
  ~ fails_with InvalidInput
      (run scripted quickSplit (script_of wrap_window false) []) /\
  ~ fails_with InsufficientTabs
      (run scripted quickSplit (script_of wrap_window false) []).
Proof.
  apply (quickSplit_pair_is_valid scripted (script_of wrap_window false) []
           [tabA'; tabB'] eq_refl).
  - simpl. lia.
  - simpl. repeat constructor; simpl; intuition discriminate.
  - intros t [<- | [<- | []]]; discriminate.
  - exists tabB'. split; [right; left; reflexivity | reflexivity].
Defined.

(** ** splitWindow: the remaining failures *)

(** X17.  Past the validation and the size check, [splitWindow] answers
    [TabNotFound] exactly when the two lookups do not both resolve to a
    tab.  The right tab is looked up only after the left lookup was
    fulfilled: when the left lookup is rejected, the calls are the fetch
    and that one lookup. *)
Theorem splitWindow_tab_not_found {H : Type} (host : Host H)
  (l r : JsValue) (h : H) (reg : Registry) (cw : Window.t) :
  nonzero_number l -> nonzero_number r -> strict_equal l r = false ->
  fst (host windows_getCurrent h) = Fulfilled cw ->
  400 <= Window.width cw -> 300 <= Window.height cw ->
  let o := run host (splitWindow l r) h reg in
  let h1 := snd (host windows_getCurrent h) in
  (fails_with TabNotFound o <->
   ~ exists leftTab rightTab,
       fst (host (tabs_get l) h1) = Fulfilled (Some leftTab) /\
       fst (host (tabs_get r) (snd (host (tabs_get l) h1)))
         = Fulfilled (Some rightTab)) /\
  ((exists message, fst (host (tabs_get l) h1) = Rejected message) ->
   calls o = [windows_getCurrent; tabs_get l]).
Proof.
  intros Hl Hr Hne Hcw Hw Hh.
  assert (Hv := proj2 (validation_both l r) (conj Hl Hr)).
  assert (Hbig : (Window.width cw <? 400) || (Window.height cw <? 300)
                 = false).
  { apply orb_false_iff. rewrite !Z.ltb_ge. split; assumption. }
  unfold splitWindow, fails_with. rewrite Hv, Hne. cbv zeta. simpl.
  destruct (host windows_getCurrent h) as [[cw' | m] h1] eqn:E0;
    simpl in Hcw; [ | discriminate].
  injection Hcw as ->. simpl. rewrite Hbig. simpl.
  destruct (host (tabs_get l) h1) as [[[leftTab | ] | m] h2] eqn:E1; simpl.
  - destruct (host (tabs_get r) h2) as [[[rightTab | ] | m] h3] eqn:E2;
      simpl.
    + split.
      * split.
        -- settle host; simpl; intros [e He]; discriminate.
        -- intros Hnot. exfalso. apply Hnot. eauto.
      * intros [m Hm]. discriminate.
    + split; [ | intros [m Hm]; discriminate].
      split; [ | intros _; eexists; reflexivity].
      intros _ (lt & rt & _ & Hrt). discriminate.
    + split; [ | intros [m' Hm]; discriminate].
      split; [ | intros _; eexists; reflexivity].
      intros _ (lt & rt & _ & Hrt). discriminate.
  - split.
    + split.
      * intros _ (lt & rt & Hlt & _). discriminate.
      * intros _.
        destruct (host (tabs_get r) h2) as [[[rightTab | ] | m] h3];
          simpl; eexists; reflexivity.
    + intros [m Hm]. discriminate.
  - split; [ | reflexivity].
    split; [ | intros _; eexists; reflexivity].
    intros _ (lt & rt & Hlt & _). discriminate.
Qed.

Lemma splitWindow_tab_not_found_witness :
  fails_with TabNotFound
    (run scripted (splitWindow (js_int 11) (js_int 99))
         (script_of large_window false) []).
Proof.
  apply (proj1 (splitWindow_tab_not_found scripted (js_int 11) (js_int 99)
                  (script_of large_window false) [] large_window
                  ltac:(simpl; discriminate) ltac:(simpl; discriminate)
                  eq_refl eq_refl ltac:(simpl; lia) ltac:(simpl; lia))).
  intros (leftTab & rightTab & _ & Hright). discriminate.
Defined.

Ltac use_replies :=
  repeat match goal with
         | E : ?host ?c ?h = _ |- context [?host ?c ?h] =>
             rewrite E; simpl
         end.

Ltac last_call_rejected :=
  match goal with
  | |- exists prefix c, ?cs = prefix ++ [c] /\ _ =>
      exists (removelast cs), (last cs windows_getCurrent);
      split; [reflexivity | ];
      unfold host_after; simpl; use_replies; reflexivity
  end.

(** X18.  The error of a [HostOperationFailed] answer of [splitWindow] is
    the host's own message, unchanged: either the last call the operation
    made was rejected by the host with exactly that message, or both
    creations returned and one of them resolved to nothing, and the error
    is the worker's ['Failed to create one or both windows']. *)
Theorem splitWindow_preserves_host_message {H : Type} (host : Host H)
  (l r : JsValue) (h : H) (reg : Registry) (error : string) :
  completion (run host (splitWindow l r) h reg)
    = Normal (Failure HostOperationFailed error) ->
  error = "Failed to create one or both windows" \/
  exists prefix c,
    calls (run host (splitWindow l r) h reg) = prefix ++ [c] /\
    fst (host c (host_after host prefix h)) = Rejected error.
Proof.
  unfold splitWindow.
  settle host; simpl; intros Hfail; try discriminate Hfail;
    injection Hfail as <-;
    first [ left; reflexivity | right; last_call_rejected ].
Qed.

Lemma splitWindow_preserves_host_message_witness :
  "host failure" = "Failed to create one or both windows" \/
  exists prefix c,
    calls (run failing (splitWindow (js_int 11) (js_int 12)) tt [])
      = prefix ++ [c] /\
    fst (failing c (host_after failing prefix tt)) = Rejected "host failure".
Proof.
  apply (splitWindow_preserves_host_message failing (js_int 11) (js_int 12)
           tt [] "host failure").
  reflexivity.
Defined.

(** X19.  Likewise for [createReferenceWindow]: a [HostOperationFailed]
    answer carries the message with which the host rejected the last call
    made (the fetch of the current window or the creation), or, when the
    creation resolved to nothing, the message of the [TypeError] raised by
    reading the id of the missing window.  A rejected tab lookup never
    ends up here: it is answered [TabNotFound]. *)
Theorem createReferenceWindow_preserves_host_message {H : Type}
  (host : Host H) (tab : JsValue) (h : H) (reg : Registry)
  (error : string) :
  completion (run host (createReferenceWindow tab) h reg)
    = Normal (Failure HostOperationFailed error) ->
  error = TypeError_id \/
  exists prefix c,
    calls (run host (createReferenceWindow tab) h reg) = prefix ++ [c] /\
    c <> tabs_get tab /\
    fst (host c (host_after host prefix h)) = Rejected error.
Proof.
  unfold createReferenceWindow.
  destruct (js_not tab || negb (typeof tab =? "number")%string);
    [discriminate | ].
  step. destruct (3 <=? Set_size reg)%nat; [discriminate | ].
  settle host; simpl; intros Hfail; try discriminate Hfail;
    injection Hfail as <-;
    first [ left; reflexivity
          | right;
            match goal with
            | |- exists prefix c, ?cs = prefix ++ [c] /\ _ =>
                exists (removelast cs), (last cs windows_getCurrent);
                split; [reflexivity | ];
                split; [simpl; discriminate | ];
                unfold host_after; simpl; use_replies; reflexivity
            end ].
Qed.

Lemma createReferenceWindow_preserves_host_message_witness :
  "host failure" = TypeError_id \/
  exists prefix c,
    calls (run (fun c s =>
                  match c return Settled (reply_type c) * bool with
                  | tabs_get _ => (Fulfilled (Some tabA), s)
                  | _ => (Rejected "host failure", s)
                  end)
               (createReferenceWindow (js_int 11)) true [])
      = prefix ++ [c] /\
    c <> tabs_get (js_int 11) /\
    fst ((fun c s =>
            match c return Settled (reply_type c) * bool with
            | tabs_get _ => (Fulfilled (Some tabA), s)
            | _ => (Rejected "host failure", s)
            end) c
           (host_after (fun c s =>
                          match c return Settled (reply_type c) * bool with
                          | tabs_get _ => (Fulfilled (Some tabA), s)
                          | _ => (Rejected "host failure", s)
                          end) prefix true))
      = Rejected "host failure".
Proof.
  apply (createReferenceWindow_preserves_host_message
           (fun c s =>
              match c return Settled (reply_type c) * bool with
              | tabs_get _ => (Fulfilled (Some tabA), s)
              | _ => (Rejected "host failure", s)
              end)
           (js_int 11) true [] "host failure").
  reflexivity.
Defined.

(** ** Overlapping calls and the limit *)

(** X20.  [createReferenceWindow] checks the limit once, in its first
    turn, before its first [await].  A valid call that starts with fewer
    than 3 windows tracked suspends on the tab lookup; whatever the
    registry holds when it resumes, even 3 windows or more added by calls
    that overlapped with it, it is never refused with
    [ReferenceLimitReached], and when it succeeds its window is added to
    that registry. *)
Theorem createReferenceWindow_checks_limit_once {H : Type} (host : Host H)
  (tab : JsValue) (h : H) (reg : Registry) :
  nonzero_number tab -> (Set_size reg < 3)%nat ->
  let suspended := turn host (createReferenceWindow tab) h reg in
  snd suspended = reg /\
  snd (fst suspended) = snd (host (tabs_get tab) h) /\
  forall (h' : H) (later : Registry),
    let o := run host (fst (fst suspended)) h' later in
    ~ fails_with ReferenceLimitReached o /\
    (forall data, completion o = Normal (Success data) ->
                  final_registry o = Set_add later (windowId data) /\
                  In (windowId data) (final_registry o)).
Proof.
  intros Hvalid Hroom. apply validation_passes in Hvalid.
  apply Nat.leb_gt in Hroom.
  unfold turn, createReferenceWindow. rewrite Hvalid.
  cbn [until_await try_catch bind referenceWindows_size fst snd].
  rewrite Hroom. simpl.
  split; [reflexivity | ]. split; [reflexivity | ].
  intros h' later. unfold fails_with. cbv zeta.
  destruct (host (tabs_get tab) h) as [[[t | ] | m] h1]; simpl.
  - split.
    + settle host; simpl; intros [e He]; discriminate.
    + settle host; simpl; intros data Hok; try discriminate Hok.
      injection Hok as <-. simpl. split; [reflexivity | apply Set_add_In].
  - split; [intros [e He]; discriminate | intros data Hok; discriminate].
  - split; [intros [e He]; discriminate | intros data Hok; discriminate].
Qed.

Lemma createReferenceWindow_checks_limit_once_witness :
  final_registry
    (run scripted
         (fst (fst (turn scripted (createReferenceWindow (js_int 11))
                         (script_of large_window false) [201; 202])))
         (script_of large_window false) full_registry)
    = Set_add full_registry 100 /\
  In 100
    (final_registry
       (run scripted
            (fst (fst (turn scripted (createReferenceWindow (js_int 11))
                            (script_of large_window false) [201; 202])))
            (script_of large_window false) full_registry)).
Proof.
  apply (proj2 (proj2 (proj2
           (createReferenceWindow_checks_limit_once scripted (js_int 11)
              (script_of large_window false) [201; 202]
              ltac:(simpl; discriminate) ltac:(simpl; lia)))
           (script_of large_window false) full_registry)
           {| windowId := 100; tabId := js_int 11;
              dimensions := (160, 600) |}).
  reflexivity.
Defined.

(** * The popup *)

(** ** Strings *)

Lemma length_append (s t : string) :
  String.length (s ++ t) = (String.length s + String.length t)%nat.
Proof.
  induction s as [ | c s IH]; simpl; [reflexivity | rewrite IH; reflexivity].
Qed.

Lemma length_substring_0 (n : nat) (s : string) :
  (n <= String.length s)%nat -> String.length (substring 0 n s) = n.
Proof.
  revert s. induction n as [ | n IH]; intros s Hn.
  - destruct s; reflexivity.
  - destruct s as [ | c s]; simpl in *; [lia | ].
    rewrite IH by lia. reflexivity.
Qed.

Lemma prefix_substring_0 (n : nat) (s : string) :
  prefix (substring 0 n s) s = true.
Proof.
  revert s. induction n as [ | n IH]; intros s.
  - destruct s; reflexivity.
  - destruct s as [ | c s]; simpl; [reflexivity | ].
    destruct (Ascii.ascii_dec c c); [apply IH | congruence].
Qed.

Lemma prefix_append (p s t : string) :
  prefix p s = true -> prefix p (s ++ t) = true.
Proof.
  revert s. induction p as [ | c p IH]; intros s Hp.
  - destruct (s ++ t)%string; reflexivity.
  - destruct s as [ | d s]; simpl in *; [discriminate | ].
    destruct (Ascii.ascii_dec c d); [apply IH; exact Hp | discriminate].
Qed.

(** X21.  The name the popup shows for a tab is never empty and never
    longer than 43 characters: ['Untitled'] for an empty title, the title
    itself up to 40 characters, and otherwise its first 40 characters
    followed by ['...']. *)
Theorem getTabDisplayName_bounded (tab : Tab.t) :
  let title := Tab.title tab in
  let name := getTabDisplayName tab in
  (1 <= String.length name <= 43)%nat /\
  (title = "" -> name = "Untitled") /\
  ((1 <= String.length title <= 40)%nat -> name = title) /\
  ((40 < String.length title)%nat ->
   name = (substring 0 40 title ++ "...")%string /\
   String.length name = 43%nat /\
   prefix (substring 0 40 title) title = true /\
   prefix (substring 0 40 title) name = true).
Proof.
  intros title name. subst title name. unfold getTabDisplayName.
  destruct (Tab.title tab) as [ | c rest] eqn:Etitle.
  - simpl. repeat split; try lia; try reflexivity; simpl; intros; lia.
  - cbn [string_or].
    replace (String c rest =? "")%string with false by reflexivity.
    cbv zeta.
    destruct (Nat.ltb_spec 40 (String.length (String c rest))) as [Hlong | Hshort].
    + assert (Hlen : String.length
                       (substring 0 40 (String c rest) ++ "...") = 43%nat).
      { rewrite length_append, length_substring_0 by lia. reflexivity. }
      split; [rewrite Hlen; lia | ].
      split; [discriminate | ].
      split; [intros; lia | ].
      intros _. split; [reflexivity | ]. split; [exact Hlen | ].
      split; [apply prefix_substring_0 | ].
      apply prefix_append.
      assert (Hself : forall s, prefix s s = true).
      { induction s as [ | d s IH]; simpl; [reflexivity | ].
        destruct (Ascii.ascii_dec d d); [exact IH | congruence]. }
      apply Hself.
    + split; [simpl in *; lia | ].
      split; [discriminate | ].
      split; [reflexivity | intros; lia].
Qed.

Lemma getTabDisplayName_bounded_witness :
  getTabDisplayName tabA = "A".
Proof.
  apply (proj1 (proj2 (proj2 (getTabDisplayName_bounded tabA)))).
  simpl. lia.
Defined.

(** ** Splitting from the popup *)

Section PopupRuns.
Context {B : Type} (worker : Worker B).

Lemma run_popup_ptry_catch_normal {A : Type} (p : PopupAsync A)
  (handler : string -> PopupAsync A) s b a :
  popup_completion (run_popup worker p s b) = Normal a ->
  run_popup worker (ptry_catch p handler) s b = run_popup worker p s b.
Proof.
  revert s b.
  induction p as [x | m | message k IH | k IH | s' k IH]; intros s b Ha;
    simpl in *.
  - reflexivity.
  - discriminate.
  - rewrite IH by exact Ha. reflexivity.
  - apply IH. exact Ha.
  - apply IH. exact Ha.
Qed.

(** What [performSplit] does when the popup is not busy. *)
Lemma performSplit_run (l r : JsValue) s b :
  Popup.isLoading s = false ->
  let ready :=
    Popup.mk (Popup.tabs s) false
      (Popup.leftTabSelect_value s) (Popup.rightTabSelect_value s)
      false false false false
      (map (fun _ => false) (Popup.refButtons_disabled s)) false in
  run_popup worker (performSplit l r) s b
  = mkPopupOutcome (Normal tt)
      match fst (worker (action_splitWindow l r) b) with
      | Fulfilled (Some response) =>
          if response_success response
          then ready "Windows split successfully!" "status-message success"
                     (S (Popup.close_timers s))
          else ready ("Error: " ++ string_or (response_error response)
                                             "Failed to split windows")%string
                     "status-message error" (Popup.close_timers s)
      | Fulfilled None =>
          ready ("Error: " ++ TypeError_success)%string
                "status-message error" (Popup.close_timers s)
      | Rejected m =>
          ready ("Error: " ++ m)%string "status-message error"
                (Popup.close_timers s)
      end
      (snd (worker (action_splitWindow l r) b))
      [action_splitWindow l r].
Proof.
  intros Hidle. unfold performSplit. simpl. rewrite Hidle. simpl.
  destruct (worker (action_splitWindow l r) b) as [[[response | ] | m] b'];
    simpl; try destruct (response_success response);
    simpl; unfold loading_set, shown, close_scheduled; simpl;
    rewrite ?map_map; reflexivity.
Qed.

Lemma performSplit_busy (l r : JsValue) s b :
  Popup.isLoading s = true ->
  run_popup worker (performSplit l r) s b
  = mkPopupOutcome (Normal tt) s b [].
Proof.
  intros Hbusy. unfold performSplit. simpl. rewrite Hbusy. reflexivity.
Qed.

Lemma performSplit_completes (l r : JsValue) s b :
  popup_completion (run_popup worker (performSplit l r) s b) = Normal tt.
Proof.
  destruct (Popup.isLoading s) eqn:E.
  - rewrite performSplit_busy by exact E. reflexivity.
  - rewrite performSplit_run by exact E. reflexivity.
Qed.

End PopupRuns.

(** X22.  [performSplit] is guarded by the loading flag and always resets
    it.  While a split is under way it does nothing at all: no message,
    no change to the popup.  Otherwise it sends exactly one [splitWindow]
    message with the two ids and, whatever comes back (a success, a
    failure, no response, a transport error), ends with the flag cleared,
    all four buttons and every reference button enabled and the body no
    longer ['loading'].  The status shows the success text, and the popup
    is scheduled to close, exactly when the response has
    [success: true]; otherwise it shows ['Error: '] followed by the error
    of the response (or ['Failed to split windows'] when that is missing
    or empty), the [TypeError] for a missing response, or the transport
    error. *)
Theorem performSplit_guard_and_reset {B : Type} (worker : Worker B)
  (l r : JsValue) (s : Popup.t) (b : B) :
  let o := run_popup worker (performSplit l r) s b in
  let after := popup_final o in
  popup_completion o = Normal tt /\
  (Popup.isLoading s = true ->
   after = s /\ sent o = [] /\ worker_final o = b) /\
  (Popup.isLoading s = false ->
   sent o = [action_splitWindow l r] /\
   Popup.isLoading after = false /\
   Popup.splitButton_disabled after = false /\
   Popup.splitCurrentAndNextBtn_disabled after = false /\
   Popup.splitFirstTwoBtn_disabled after = false /\
   Popup.closeAllReferencesBtn_disabled after = false /\
   Popup.body_loading after = false /\
   Popup.refButtons_disabled after
     = map (fun _ => false) (Popup.refButtons_disabled s) /\
   Popup.tabs after = Popup.tabs s /\
   match fst (worker (action_splitWindow l r) b) with
   | Fulfilled (Some response) =>
       if response_success response
       then Popup.statusMessage_textContent after
              = "Windows split successfully!" /\
            Popup.statusMessage_className after
              = "status-message success" /\
            Popup.close_timers after = S (Popup.close_timers s)
       else Popup.statusMessage_textContent after
              = ("Error: " ++ string_or (response_error response)
                                        "Failed to split windows")%string /\
            Popup.statusMessage_className after = "status-message error" /\
            Popup.close_timers after = Popup.close_timers s
   | Fulfilled None =>
       Popup.statusMessage_textContent after
         = ("Error: " ++ TypeError_success)%string /\
       Popup.statusMessage_className after = "status-message error" /\
       Popup.close_timers after = Popup.close_timers s
   | Rejected message =>
       Popup.statusMessage_textContent after
         = ("Error: " ++ message)%string /\
       Popup.statusMessage_className after = "status-message error" /\
       Popup.close_timers after = Popup.close_timers s
   end).
Proof.
  cbv zeta. split; [apply performSplit_completes | ]. split.
  - intros Hbusy. rewrite (performSplit_busy worker l r s b Hbusy). auto.
  - intros Hidle. rewrite (performSplit_run worker l r s b Hidle). cbv zeta.
    cbn [popup_final sent].
    destruct (fst (worker (action_splitWindow l r) b))
      as [[response | ] | m];
      [destruct (response_success response) | | ];
      repeat split.
Qed.

Lemma performSplit_guard_and_reset_witness :
  Popup.isLoading
    (loading_set true (idle_popup [tabA; tabB] "11" "12")) = true /\
  popup_final
    (run_popup (background scripted) (performSplit (js_int 11) (js_int 12))
       (loading_set true (idle_popup [tabA; tabB] "11" "12"))
       (script_of large_window false, []))
    = loading_set true (idle_popup [tabA; tabB] "11" "12") /\
  sent
    (run_popup (background scripted) (performSplit (js_int 11) (js_int 12))
       (loading_set true (idle_popup [tabA; tabB] "11" "12"))
       (script_of large_window false, []))
    = [] /\
  worker_final
    (run_popup (background scripted) (performSplit (js_int 11) (js_int 12))
       (loading_set true (idle_popup [tabA; tabB] "11" "12"))
       (script_of large_window false, []))
    = (script_of large_window false, []).
Proof.
  split; [reflexivity | ].
  apply (proj1 (proj2 (performSplit_guard_and_reset (background scripted)
                         (js_int 11) (js_int 12)
                         (loading_set true (idle_popup [tabA; tabB] "11" "12"))
                         (script_of large_window false, [])))).
  reflexivity.
Defined.

Section PopupQuickSplit.
Context {B : Type} (worker : Worker B).

Lemma handleQuickSplit_picked (type : string) s b
  (leftTab rightTab : Tab.t) :
  (2 <= List.length (Popup.tabs s))%nat ->
  (if (type =? "currentAndNext")%string then
     (array_at (Popup.tabs s) (findIndex Tab.active (Popup.tabs s)),
      or_else (array_at (Popup.tabs s)
                        (findIndex Tab.active (Popup.tabs s) + 1))
              (array_at (Popup.tabs s) 0))
   else if (type =? "firstTwo")%string then
     (array_at (Popup.tabs s) 0, array_at (Popup.tabs s) 1)
   else (None, None)) = (Some leftTab, Some rightTab) ->
  run_popup worker (handleQuickSplit type) s b
  = run_popup worker (performSplit (js_int (Tab.id leftTab))
                                   (js_int (Tab.id rightTab))) s b.
Proof.
  intros Hmany Hpicked. apply Nat.ltb_ge in Hmany.
  unfold handleQuickSplit.
  cbn [run_popup pbind this]. rewrite Hmany. cbv zeta. rewrite Hpicked.
  apply (run_popup_ptry_catch_normal worker _ _ s b tt).
  apply performSplit_completes.
Qed.

Lemma handleQuickSplit_nothing (type : string) s b :
  (2 <= List.length (Popup.tabs s))%nat ->
  (forall leftTab rightTab,
     (if (type =? "currentAndNext")%string then
        (array_at (Popup.tabs s) (findIndex Tab.active (Popup.tabs s)),
         or_else (array_at (Popup.tabs s)
                           (findIndex Tab.active (Popup.tabs s) + 1))
                 (array_at (Popup.tabs s) 0))
      else if (type =? "firstTwo")%string then
        (array_at (Popup.tabs s) 0, array_at (Popup.tabs s) 1)
      else (None, None)) <> (Some leftTab, Some rightTab)) ->
  run_popup worker (handleQuickSplit type) s b
  = mkPopupOutcome (Normal tt) s b [].
Proof.
  intros Hmany Hnone. apply Nat.ltb_ge in Hmany.
  unfold handleQuickSplit.
  cbn [run_popup pbind this]. rewrite Hmany. cbv zeta.
  match goal with
  | |- context [match ?picked with (_, _) => _ end] =>
      destruct picked as [[leftTab | ] [rightTab | ]] eqn:E
  end; try reflexivity.
  exfalso. apply (Hnone leftTab rightTab). reflexivity.
Qed.

End PopupQuickSplit.

(** X23.  The popup's "current and next" button picks the same pair as
    the worker's own [quickSplit]: with at least 2 tabs loaded and the
    first active tab at index [i], it performs the split of [tabs[i]] and
    [tabs[(i + 1) mod n]], the next tab or the first one when the active
    tab is last; when the popup is not busy, that is one [splitWindow]
    message with the two tab ids. *)
Theorem handleQuickSplit_currentAndNext {B : Type} (worker : Worker B)
  (s : Popup.t) (b : B) (i : nat) (leftTab : Tab.t) :
  (2 <= List.length (Popup.tabs s))%nat ->
  nth_error (Popup.tabs s) i = Some leftTab ->
  Tab.active leftTab = true ->
  (forall j t, (j < i)%nat -> nth_error (Popup.tabs s) j = Some t ->
               Tab.active t = false) ->
  exists rightTab,
    nth_error (Popup.tabs s) ((i + 1) mod List.length (Popup.tabs s))
      = Some rightTab /\
    run_popup worker (handleQuickSplit "currentAndNext") s b
      = run_popup worker (performSplit (js_int (Tab.id leftTab))
                                       (js_int (Tab.id rightTab))) s b /\
    (Popup.isLoading s = false ->
     sent (run_popup worker (handleQuickSplit "currentAndNext") s b)
       = [action_splitWindow (js_int (Tab.id leftTab))
                             (js_int (Tab.id rightTab))]).
Proof.
  intros Hmany Hleft Hactive Hfirst.
  assert (Hi : (i < List.length (Popup.tabs s))%nat).
  { apply nth_error_Some. congruence. }
  destruct (nth_error (Popup.tabs s)
              ((i + 1) mod List.length (Popup.tabs s)))
    as [rightTab | ] eqn:Hright.
  2: { apply nth_error_None in Hright.
       pose proof (Nat.mod_upper_bound (i + 1)
                     (List.length (Popup.tabs s))). lia. }
  exists rightTab. split; [reflexivity | ].
  assert (Hrun :
    run_popup worker (handleQuickSplit "currentAndNext") s b
    = run_popup worker (performSplit (js_int (Tab.id leftTab))
                                     (js_int (Tab.id rightTab))) s b).
  { apply handleQuickSplit_picked; [exact Hmany | ].
    replace ("currentAndNext" =? "currentAndNext")%string with true
      by reflexivity.
    rewrite (findIndex_first Tab.active _ i leftTab Hleft Hactive Hfirst).
    rewrite array_at_nat, Hleft, (next_or_first _ i Hi), Hright.
    reflexivity. }
  split; [exact Hrun | ].
  intros Hidle. rewrite Hrun.
  rewrite (performSplit_run worker _ _ s b Hidle). reflexivity.
Qed.

Lemma handleQuickSplit_currentAndNext_witness :
  exists rightTab,
    nth_error [tabA'; tabB'] ((1 + 1) mod 2) = Some rightTab /\
    run_popup (background scripted) (handleQuickSplit "currentAndNext")
              (idle_popup [tabA'; tabB'] "" "")
              (script_of wrap_window false, [])
      = run_popup (background scripted)
                  (performSplit (js_int (Tab.id tabB'))
                                (js_int (Tab.id rightTab)))
                  (idle_popup [tabA'; tabB'] "" "")
                  (script_of wrap_window false, []) /\
    (false = false ->
     sent (run_popup (background scripted)
                     (handleQuickSplit "currentAndNext")
                     (idle_popup [tabA'; tabB'] "" "")
                     (script_of wrap_window false, []))
       = [action_splitWindow (js_int (Tab.id tabB'))
                             (js_int (Tab.id rightTab))]).
Proof.
  apply (handleQuickSplit_currentAndNext (background scripted)
           (idle_popup [tabA'; tabB'] "" "")
           (script_of wrap_window false, []) 1%nat tabB').
  - simpl. lia.
  - reflexivity.
  - reflexivity.
  - intros j t Hj Ht. destruct j as [ | j]; [ | lia].
    simpl in Ht. injection Ht as <-. reflexivity.
Defined.

(** X24.  The edges of the popup's quick split.  With fewer than 2 tabs
    loaded it shows ['Need at least 2 tabs to split'] as an error and
    sends nothing.  With 2 tabs or more: "first two" performs the split
    of the first and the second tab; "current and next" with no active
    tab does nothing at all, silently (where the worker's [quickSplit]
    answers with a [TypeError]); and so does any other type. *)
Theorem handleQuickSplit_edges {B : Type} (worker : Worker B)
  (type : string) (s : Popup.t) (b : B) :
  let o := run_popup worker (handleQuickSplit type) s b in
  ((List.length (Popup.tabs s) < 2)%nat ->
   popup_completion o = Normal tt /\ sent o = [] /\ worker_final o = b /\
   Popup.statusMessage_textContent (popup_final o)
     = "Need at least 2 tabs to split" /\
   Popup.statusMessage_className (popup_final o)
     = "status-message error" /\
   Popup.isLoading (popup_final o) = Popup.isLoading s /\
   Popup.close_timers (popup_final o) = Popup.close_timers s) /\
  (forall first second rest,
     Popup.tabs s = first :: second :: rest -> type = "firstTwo" ->
     o = run_popup worker (performSplit (js_int (Tab.id first))
                                        (js_int (Tab.id second))) s b) /\
  ((2 <= List.length (Popup.tabs s))%nat ->
   type = "currentAndNext" ->
   (forall t, In t (Popup.tabs s) -> Tab.active t = false) ->
   o = mkPopupOutcome (Normal tt) s b []) /\
  ((2 <= List.length (Popup.tabs s))%nat ->
   type <> "currentAndNext" -> type <> "firstTwo" ->
   o = mkPopupOutcome (Normal tt) s b []).
Proof.
  cbv zeta. split; [ | split; [ | split]].
  - intros Hfew. apply Nat.ltb_lt in Hfew.
    unfold handleQuickSplit. cbn [run_popup pbind this]. rewrite Hfew.
    repeat split.
  - intros first second rest Htabs ->.
    apply handleQuickSplit_picked.
    + rewrite Htabs. simpl. lia.
    + rewrite Htabs. reflexivity.
  - intros Hmany -> Hidle.
    apply handleQuickSplit_nothing; [exact Hmany | ].
    intros leftTab rightTab.
    replace ("currentAndNext" =? "currentAndNext")%string with true
      by reflexivity.
    rewrite (findIndex_none Tab.active _ Hidle).
    unfold array_at at 1. simpl. discriminate.
  - intros Hmany Hcurrent Hfirst.
    apply handleQuickSplit_nothing; [exact Hmany | ].
    intros leftTab rightTab.
    apply String.eqb_neq in Hcurrent, Hfirst.
    rewrite Hcurrent, Hfirst. discriminate.
Qed.

Lemma handleQuickSplit_edges_witness :
  run_popup (background scripted) (handleQuickSplit "currentAndNext")
            (idle_popup [tabA'; tabB] "" "")
            (script_of idle_window false, [])
  = mkPopupOutcome (Normal tt) (idle_popup [tabA'; tabB] "" "")
                   (script_of idle_window false, []) [].
Proof.
  apply (proj1 (proj2 (proj2
           (handleQuickSplit_edges (background scripted) "currentAndNext"
              (idle_popup [tabA'; tabB] "" "")
              (script_of idle_window false, []))))).
  - simpl. lia.
  - reflexivity.
  - intros t [<- | [<- | []]]; reflexivity.
Defined.

(** ** The manual split *)

Lemma handleSplit_guard (l r : JsNumber) :
  isNaN l || isNaN r || js_not (JsNum l) || js_not (JsNum r) = false <->
  nonzero_number (JsNum l) /\ nonzero_number (JsNum r).
Proof.
  rewrite <- !validation_passes. simpl.
  destruct l as [p | | sl], r as [q | | sr]; unfold js_not; simpl;
    rewrite ?orb_false_r, ?orb_true_r; try (intuition congruence).
  all: destruct (Qeq_bool p 0); simpl; rewrite ?orb_false_r, ?orb_true_r;
    try destruct (Qeq_bool q 0); simpl; intuition congruence.
Qed.

(** X25.  [handleSplit] validates the selection before it asks the
    worker: it parses the two selected values with [parseInt] and sends a
    [splitWindow] message only when both are numbers other than [0] and
    [NaN] and they differ; otherwise it shows ['Please select tabs for
    both windows'] or ['Please select different tabs'] and sends nothing.
    These are the checks of the worker's [splitWindow], so the worker
    never answers a manual split with [InvalidInput]. *)
Theorem handleSplit_never_invalid {H : Type} (host : Host H)
  (parseInt : string -> JsNumber) (s : Popup.t) (h : H) (reg : Registry) :
  let o := run_popup (background host) (handleSplit parseInt) s (h, reg) in
  let l := JsNum (parseInt (Popup.leftTabSelect_value s)) in
  let r := JsNum (parseInt (Popup.rightTabSelect_value s)) in
  popup_completion o = Normal tt /\
  (sent o = [] \/ sent o = [action_splitWindow l r]) /\
  (sent o = [action_splitWindow l r] ->
   Popup.isLoading s = false /\
   nonzero_number l /\ nonzero_number r /\ strict_equal l r = false /\
   ~ fails_with InvalidInput (run host (splitWindow l r) h reg)) /\
  (~ (nonzero_number l /\ nonzero_number r) ->
   sent o = [] /\ worker_final o = (h, reg) /\
   Popup.statusMessage_textContent (popup_final o)
     = "Please select tabs for both windows" /\
   Popup.statusMessage_className (popup_final o)
     = "status-message error") /\
  (nonzero_number l -> nonzero_number r -> strict_equal l r = true ->
   sent o = [] /\ worker_final o = (h, reg) /\
   Popup.statusMessage_textContent (popup_final o)
     = "Please select different tabs" /\
   Popup.statusMessage_className (popup_final o)
     = "status-message error").
Proof.
  cbv zeta. unfold handleSplit. cbn [run_popup pbind this]. cbv zeta.
  set (l := parseInt (Popup.leftTabSelect_value s)).
  set (r := parseInt (Popup.rightTabSelect_value s)).
  destruct (isNaN l || isNaN r || js_not (JsNum l) || js_not (JsNum r))
    eqn:Eguard.
  - assert (Hbad : ~ (nonzero_number (JsNum l) /\ nonzero_number (JsNum r))).
    { rewrite <- handleSplit_guard. congruence. }
    cbn. split; [reflexivity | ]. split; [left; reflexivity | ].
    split; [discriminate | ]. split; [auto | ].
    intros Hl Hr. exfalso. apply Hbad. split; assumption.
  - apply handleSplit_guard in Eguard. destruct Eguard as [Hl Hr].
    destruct (strict_equal (JsNum l) (JsNum r)) eqn:Eeq.
    + cbn. split; [reflexivity | ]. split; [left; reflexivity | ].
      split; [discriminate | ].
      split; [intros Hbad; exfalso; apply Hbad; split; assumption | auto].
    + split; [apply performSplit_completes | ].
      destruct (Popup.isLoading s) eqn:Eload.
      * rewrite (performSplit_busy (background host) _ _ s (h, reg) Eload).
        cbn. split; [left; reflexivity | ].
        split; [discriminate | ].
        split; [intros Hbad; exfalso; apply Hbad; split; assumption | ].
        intros _ _ Htrue. discriminate.
      * rewrite (performSplit_run (background host) _ _ s (h, reg) Eload).
        cbn [sent]. split; [right; reflexivity | ].
        split.
        { intros _. repeat split; try assumption.
          destruct (splitWindow_passed host (JsNum l) (JsNum r) h reg
                      Hl Hr Eeq) as (Hvalid & _).
          exact Hvalid. }
        split; [intros Hbad; exfalso; apply Hbad; split; assumption | ].
        intros _ _ Htrue. discriminate.
Qed.

Lemma handleSplit_never_invalid_witness :
  Popup.isLoading (idle_popup [tabA; tabB] "11" "12") = false /\
  nonzero_number (JsNum (parse_digits "11")) /\
  nonzero_number (JsNum (parse_digits "12")) /\
  strict_equal (JsNum (parse_digits "11")) (JsNum (parse_digits "12"))
    = false /\
  ~ fails_with InvalidInput
      (run scripted (splitWindow (JsNum (parse_digits "11"))
                                 (JsNum (parse_digits "12")))
           (script_of large_window false) []).
Proof.
  apply (proj1 (proj2 (proj2
           (handleSplit_never_invalid scripted parse_digits
              (idle_popup [tabA; tabB] "11" "12")
              (script_of large_window false) [])))).
  reflexivity.
Defined.

(** ** From the popup to the host and back *)

Lemma background_splitWindow {H : Type} (host : Host H)
  (l r : JsValue) h reg :
  exists response,
    completion (run host (splitWindow l r) h reg) = Normal response /\
    background host (action_splitWindow l r) (h, reg)
    = (Fulfilled (Some (SplitResult response)),
       (final_host (run host (splitWindow l r) h reg), reg)).
Proof.
  destruct (splitWindow_never_throws host l r h reg) as [response Hresponse].
  exists response. split; [exact Hresponse | ].
  unfold background, onMessage. cbn [fst snd].
  rewrite (run_wrapped host _ SplitResult _ h reg response Hresponse).
  cbn [completion final_host final_registry].
  rewrite splitWindow_registry. reflexivity.
Qed.

(** X26.  End to end: when the popup is not busy and performs a split
    against the service worker, the worker runs [splitWindow] once on the
    host and never touches the registry, and the popup reports its
    result faithfully: the success text and a scheduled close when
    [splitWindow] succeeded, otherwise ['Error: '] followed by the very
    error of [splitWindow] (or ['Failed to split windows'] if that error
    is empty). *)
Theorem popup_split_end_to_end {H : Type} (host : Host H)
  (l r : JsValue) (s : Popup.t) (h : H) (reg : Registry) :
  Popup.isLoading s = false ->
  let w := run host (splitWindow l r) h reg in
  let o := run_popup (background host) (performSplit l r) s (h, reg) in
  worker_final o = (final_host w, reg) /\
  match completion w with
  | Normal (Success _) =>
      Popup.statusMessage_textContent (popup_final o)
        = "Windows split successfully!" /\
      Popup.statusMessage_className (popup_final o)
        = "status-message success" /\
      Popup.close_timers (popup_final o) = S (Popup.close_timers s)
  | Normal (Failure _ error) =>
      Popup.statusMessage_textContent (popup_final o)
        = ("Error: " ++ (if (error =? "")%string
                         then "Failed to split windows" else error))%string /\
      Popup.statusMessage_className (popup_final o)
        = "status-message error" /\
      Popup.close_timers (popup_final o) = Popup.close_timers s
  | Abrupt _ => False
  end.
Proof.
  intros Hidle. cbv zeta.
  rewrite (performSplit_run (background host) l r s (h, reg) Hidle).
  cbv zeta. cbn [worker_final popup_final].
  destruct (background_splitWindow host l r h reg)
    as (response & Hresponse & ->).
  rewrite Hresponse. cbn [fst snd].
  split; [reflexivity | ].
  destruct response as [data | kind error]; cbn; repeat split.
Qed.

Lemma popup_split_end_to_end_witness :
  worker_final
    (run_popup (background scripted) (performSplit (js_int 11) (js_int 12))
       (idle_popup [tabA; tabB] "11" "12")
       (script_of large_window false, full_registry))
    = (final_host (run scripted (splitWindow (js_int 11) (js_int 12))
                       (script_of large_window false) full_registry),
       full_registry) /\
  match completion (run scripted (splitWindow (js_int 11) (js_int 12))
                        (script_of large_window false) full_registry) with
  | Normal (Success _) =>
      Popup.statusMessage_textContent
        (popup_final
           (run_popup (background scripted)
              (performSplit (js_int 11) (js_int 12))
              (idle_popup [tabA; tabB] "11" "12")
              (script_of large_window false, full_registry)))
        = "Windows split successfully!" /\
      Popup.statusMessage_className
        (popup_final
           (run_popup (background scripted)
              (performSplit (js_int 11) (js_int 12))
              (idle_popup [tabA; tabB] "11" "12")
              (script_of large_window false, full_registry)))
        = "status-message success" /\
      Popup.close_timers
        (popup_final
           (run_popup (background scripted)
              (performSplit (js_int 11) (js_int 12))
              (idle_popup [tabA; tabB] "11" "12")
              (script_of large_window false, full_registry)))
        = 1%nat
  | Normal (Failure _ error) => False
  | Abrupt _ => False
  end.
Proof.
  apply (popup_split_end_to_end scripted (js_int 11) (js_int 12)
           (idle_popup [tabA; tabB] "11" "12")
           (script_of large_window false) full_registry).
  reflexivity.
Defined.
